(** * cop-context: the tool-call dispatcher and its record store

    A shallow embedding of [context.py], [tools.py], [handlers.py] and
    [pipeline.py].  [Person] instances are mutated through references,
    so the store keeps them in an explicit object store and the people
    dictionary maps names to references: sharing and in-place mutation
    stay visible.  The people dictionary itself is referred to by the
    store alone and is kept in it by value. *)

From Stdlib Require Import Ascii String DecimalString.
From stdpp Require Import base option list strings gmap fin_maps.

Local Open Scope string_scope.
Local Open Scope list_scope.
Set Warnings "-register-all,-clear-no-such-hyp".

(** ** Python values that cross the JSON boundary *)

(** What [json.loads] can return and what the handlers give to
    [json.dumps].  A number with a fraction or an exponent keeps its
    literal ([JFloat]); no arithmetic is ever done on one. *)
Inductive json :=
| JNull
| JBool (b : bool)
| JInt (n : Z)
| JFloat (literal : string)
| JStr (s : string)
| JArr (items : list json)
| JObj (fields : list (string * json)).

(** [d[key]] lookup in a dict given by its items. *)
Fixpoint dict_get (key : string) (fields : list (string * json)) : option json :=
  match fields with
  | [] => None
  | (k, v) :: rest => if bool_decide (k = key) then Some v else dict_get key rest
  end.

(** [len(xs)] inside an f-string. *)
Definition str_of_nat (n : nat) : string :=
  NilEmpty.string_of_uint (Nat.to_uint n).

(** Truth value of a [str]: empty is false. *)
Definition truthy (s : string) : bool :=
  match s with
  | EmptyString => false
  | String _ _ => true
  end.

(** [needle in hay] on strings. *)
Fixpoint str_contains (needle hay : string) : bool :=
  String.prefix needle hay ||
  match hay with
  | EmptyString => false
  | String _ hay' => str_contains needle hay'
  end.

(** ** context.py: [Person] *)

Module Person.

Record t := mk {
  name : string;
  description : string;
  role : string;
  speaker_id : string;
  quotes : list string
}.

(** [Person(name, description, role, speaker_id)] *)
Definition init (name description role speaker_id : string) : t :=
  mk name description role speaker_id [].

(** The keyword names [update_person] hands to [add_data]; each is an
    attribute of the instance, so [hasattr] holds for all of them. *)
Inductive field := Name | Description | Role | SpeakerId.

Global Instance field_eq_dec : EqDecision field.
Proof. solve_decision. Defined.

Definition setattr (self : t) (key : field) (value : string) : t :=
  match key with
  | Name => mk value (description self) (role self) (speaker_id self) (quotes self)
  | Description => mk (name self) value (role self) (speaker_id self) (quotes self)
  | Role => mk (name self) (description self) value (speaker_id self) (quotes self)
  | SpeakerId => mk (name self) (description self) (role self) value (quotes self)
  end.

(** [for key, value in kwargs.items(): if hasattr(self, key): setattr(...)] *)
Definition add_data (self : t) (kwargs : list (field * string)) : t :=
  fold_left (fun self kv => setattr self kv.1 kv.2) kwargs self.

(** [self.quotes.append(quote)] *)
Definition add_quote (self : t) (quote : string) : t :=
  mk (name self) (description self) (role self) (speaker_id self)
     (quotes self ++ [quote]).

(** [merge]: a scalar field is taken from [other] when it is non-empty
    there and empty here; the quotes of [other] are walked in order and
    appended when not yet in the receiver's (growing) list. *)
Definition merge (self other : t) : t :=
  let self := if truthy (name other) && negb (truthy (name self))
              then setattr self Name (name other) else self in
  let self := if truthy (description other) && negb (truthy (description self))
              then setattr self Description (description other) else self in
  let self := if truthy (role other) && negb (truthy (role self))
              then setattr self Role (role other) else self in
  let self := if truthy (speaker_id other) && negb (truthy (speaker_id self))
              then setattr self SpeakerId (speaker_id other) else self in
  fold_left (fun self quote =>
               if bool_decide (quote ∈ quotes self) then self
               else add_quote self quote)
            (quotes other) self.

(** [__str__] *)
Definition str (self : t) : string :=
  "Person(name='" +:+ name self +:+ "', description='" +:+ description self
    +:+ "', role='" +:+ role self +:+ "', quotes="
    +:+ str_of_nat (length (quotes self)) +:+ ")".

Global Instance inhabited : Inhabited t :=
  populate (init EmptyString EmptyString EmptyString EmptyString).

End Person.

(** ** context.py: [Context] *)

(** A reference to a [Person] instance. *)
Abbreviation ref := positive.

Module Context.

(** Values kept under the bookkeeping keys. *)
Inductive value :=
| VStr (s : string)
| VBool (b : bool)
| VNone.

(** The store shared by all handlers.  [data] is the dictionary of the
    Python class, split by the type of its entries: [people] is what is
    stored under the key people (a dictionary from names to [Person]
    instances, or nothing yet), [data] holds every other key and never
    the key people.  [objs] gives the state of the [Person] instances
    the dictionary refers to. *)
Record t := mk {
  objs : gmap ref Person.t;
  people : option (gmap string ref);
  data : gmap string value;
  input_data : gmap string value
}.

(** [Context()] *)
Definition init : t := mk ∅ None ∅ ∅.

(** [context.set(key, value)], [context.get(key, default)] and
    [context.update(values)] on the bookkeeping keys. *)
Definition set (self : t) (key : string) (v : value) : t :=
  mk (objs self) (people self) (<[key := v]> (data self)) (input_data self).

Definition get (self : t) (key : string) (dflt : value) : value :=
  default dflt (data self !! key).

Definition update (self : t) (values : gmap string value) : t :=
  mk (objs self) (people self) (values ∪ data self) (input_data self).

(** [context.set("people", people)] and [context.get("people", default)]. *)
Definition set_people (self : t) (people : gmap string ref) : t :=
  mk (objs self) (Some people) (data self) (input_data self).

Definition get_people (self : t) (dflt : gmap string ref) : gmap string ref :=
  default dflt (people self).

(** Reading an instance through a reference, creating one, and changing
    one in place.  A reference held by the store always denotes an
    instance; the total lookup only lets [deref] be a function. *)
Definition deref (self : t) (r : ref) : Person.t := objs self !!! r.

Definition new (self : t) (p : Person.t) : ref * t :=
  let r := fresh (dom (objs self)) in
  (r, mk (<[r := p]> (objs self)) (people self) (data self) (input_data self)).

Definition mutate (self : t) (r : ref) (f : Person.t → Person.t) : t :=
  mk (<[r := f (deref self r)]> (objs self)) (people self) (data self) (input_data self).

End Context.

(** ** tools.py *)

Inductive ToolName := CREATE_PERSON | UPDATE_PERSON | LOOKUP_PERSON | MERGE_PERSONS.

(** [ToolName.X.value] *)
Definition ToolName_value (t : ToolName) : string :=
  match t with
  | CREATE_PERSON => "create_person"
  | UPDATE_PERSON => "update_person"
  | LOOKUP_PERSON => "lookup_person"
  | MERGE_PERSONS => "merge_persons"
  end.

(** The function part of an entry of [tool_definitions]; every property
    has type string. *)
Record tool_schema := {
  schema_name : string;
  schema_description : string;
  schema_properties : list (string * string);
  schema_required : list string
}.

Definition tool_definitions : list (ToolName * tool_schema) :=
  [ (CREATE_PERSON,
     {| schema_name := ToolName_value CREATE_PERSON;
        schema_description := "Create a new Person object in the context.";
        schema_properties :=
          [ ("name", "The person's name");
            ("description", "A description of the person");
            ("role", "The person's role");
            ("speaker_id", "The person's speaker ID") ];
        schema_required := ["name"] |});
    (UPDATE_PERSON,
     {| schema_name := ToolName_value UPDATE_PERSON;
        schema_description := "Update a Person's data or add a quote.";
        schema_properties :=
          [ ("person_name", "The name of the person to update");
            ("name", "Updated name");
            ("description", "Updated description");
            ("role", "Updated role");
            ("speaker_id", "Updated speaker ID");
            ("quote", "A quote to add to the person") ];
        schema_required := ["person_name"] |});
    (LOOKUP_PERSON,
     {| schema_name := ToolName_value LOOKUP_PERSON;
        schema_description := "Find a person by name or keyword in description.";
        schema_properties := [ ("keyword", "The name or keyword to search for") ];
        schema_required := ["keyword"] |});
    (MERGE_PERSONS,
     {| schema_name := ToolName_value MERGE_PERSONS;
        schema_description := "Merge two Person objects, combining their data.";
        schema_properties :=
          [ ("source_name", "The name of the source person");
            ("target_name", "The name of the target person to merge into") ];
        schema_required := ["source_name"; "target_name"] |}) ].

(** ** What the interpreter and its library provide *)

(** A [TypeError] raised by the dispatcher's call of a handler with the
    unpacked [args_dict] and [context=context]. *)
Inductive TypeError :=
| NotAMapping (fn : string) (v : json)
| MultipleValues (fn kw : string)
| UnexpectedKeyword (fn kw : string)
| MissingRequired (fn : string) (params : list string).

(** [json.loads] ([None] stands for [JSONDecodeError]), [json.dumps],
    [str.lower] and the text [f"{e}"] of a [TypeError]. *)
Class PyRuntime := {
  json_loads : string → option json;
  json_dumps : json → string;
  str_lower : string → string;
  TypeError_str : TypeError → string
}.

(** ** handlers.py *)

(** The handlers take the arguments their signatures declare: [str] is
    [string], [Optional[str]] is [option string].  [context] is always
    the store the dispatcher passes, never [None]. *)

Import Context (VStr).

Definition create_person (name description role speaker_id : string)
    (context : Context.t) : json * Context.t :=
  let '(person, context) :=
    Context.new context (Person.init name description role speaker_id) in
  let people := Context.get_people context ∅ in
  (* people[name] = person *)
  let people := <[name := person]> people in
  let context := Context.set_people context people in
  let context := Context.update context
    {[ "last_operation" := VStr (ToolName_value CREATE_PERSON);
       "last_result_summary" := VStr ("Created person: " +:+ name) ]} in
  (JObj [ ("status", JStr "success");
          ("person_name", JStr name);
          ("details", JStr (Person.str (Context.deref context person))) ],
   context).

(** The [updates] dictionary of [update_person], in insertion order. *)
Definition updates_of (current_name : string)
    (name description role speaker_id : option string)
    : list (Person.field * string) :=
  match name with
  | Some name => if bool_decide (name ≠ current_name) then [(Person.Name, name)] else []
  | None => []
  end ++
  match description with Some v => [(Person.Description, v)] | None => [] end ++
  match role with Some v => [(Person.Role, v)] | None => [] end ++
  match speaker_id with Some v => [(Person.SpeakerId, v)] | None => [] end.

(** [updates["name"]], when ["name" in updates]. *)
Definition updates_name (updates : list (Person.field * string)) : option string :=
  snd <$> find (λ kv, bool_decide (kv.1 = Person.Name)) updates.

Definition update_person (person_name : string)
    (name description role speaker_id quote : option string)
    (context : Context.t) : json * Context.t :=
  let people := Context.get_people context ∅ in
  match people !! person_name with
  | None =>
      (JObj [ ("error", JStr ("Person '" +:+ person_name +:+ "' not found. Cannot update.")) ],
       context)
  | Some person =>
      let original_name := person_name in
      let updates :=
        updates_of (Person.name (Context.deref context person))
                   name description role speaker_id in
      let '(context, people, updated) :=
        match updates with
        | [] => (context, people, false)
        | _ :: _ =>
            let context := Context.mutate context person
                             (λ self, Person.add_data self updates) in
            match updates_name updates with
            | Some new_name =>
                if bool_decide (new_name ≠ original_name) then
                  (* [people] is the dictionary the store holds (an entry was
                     found in it), so pop and insert show in the store at once *)
                  let people := delete original_name people in
                  let people := <[new_name := person]> people in
                  (Context.set_people context people, people, true)
                else (context, people, true)
            | None => (context, people, true)
            end
        end in
      let '(context, updated) :=
        match quote with
        | Some quote =>
            (Context.mutate context person (λ self, Person.add_quote self quote), true)
        | None => (context, updated)
        end in
      if negb updated then
        (JObj [ ("status", JStr "no_change");
                ("message", JStr ("No updates provided for " +:+ original_name)) ],
         context)
      else
        let context := Context.set_people context people in
        let context := Context.update context
          {[ "last_operation" := VStr (ToolName_value UPDATE_PERSON);
             "last_result_summary" :=
               VStr ("Updated person: " +:+ Person.name (Context.deref context person)) ]} in
        (JObj [ ("status", JStr "success");
                ("person_name", JStr (Person.name (Context.deref context person)));
                ("details", JStr (Person.str (Context.deref context person))) ],
         context)
  end.

Definition lookup_person `{!PyRuntime} (keyword : string)
    (context : Context.t) : json * Context.t :=
  let people := Context.get_people context ∅ in
  let keyword_lower := str_lower keyword in
  (* Python walks [people.items()] in insertion order; the map keeps no
     insertion order, so the matches come in the order of [map_to_list]. *)
  let results :=
    flat_map (λ '(name, person),
                let person := Context.deref context person in
                if str_contains keyword_lower (str_lower name)
                   || str_contains keyword_lower (str_lower (Person.description person))
                   || str_contains keyword_lower (str_lower (Person.role person))
                then [JObj [ ("name", JStr (Person.name person));
                             ("role", JStr (Person.role person));
                             ("description", JStr (Person.description person)) ]]
                else [])
             (map_to_list people) in
  let context := Context.update context
    {[ "last_operation" := VStr (ToolName_value LOOKUP_PERSON);
       "last_result_summary" :=
         VStr ("Found " +:+ str_of_nat (length results) +:+ " match(es) for '"
               +:+ keyword +:+ "'");
       "search_keyword" := VStr keyword ]} in
  match results with
  | [] =>
      (JObj [ ("status", JStr "no_matches");
              ("message", JStr ("No people found matching '" +:+ keyword +:+ "'")) ],
       context)
  | _ :: _ =>
      (JObj [ ("status", JStr "success");
              ("results", JArr results);
              ("count", JInt (Z.of_nat (length results))) ],
       context)
  end.

Definition merge_persons (source_name target_name : string)
    (context : Context.t) : json * Context.t :=
  let people := Context.get_people context ∅ in
  match people !! source_name with
  | None =>
      (JObj [ ("error", JStr ("Source person '" +:+ source_name
                              +:+ "' not found. Cannot merge.")) ],
       context)
  | Some source_person =>
  match people !! target_name with
  | None =>
      (JObj [ ("error", JStr ("Target person '" +:+ target_name
                              +:+ "' not found. Cannot merge.")) ],
       context)
  | Some target_person =>
      if bool_decide (source_name = target_name) then
        (JObj [ ("error", JStr ("Cannot merge person '" +:+ source_name
                                +:+ "' into themself.")) ],
         context)
      else
        (* target_person.merge(source_person) *)
        let context := Context.mutate context target_person
                         (λ self, Person.merge self (Context.deref context source_person)) in
        (* people.pop(source_name), on the dictionary the store holds *)
        let people := delete source_name people in
        let context := Context.set_people context people in
        let context := Context.update context
          {[ "last_operation" := VStr (ToolName_value MERGE_PERSONS);
             "last_result_summary" :=
               VStr ("Merged '" +:+ source_name +:+ "' into '" +:+ target_name +:+ "'");
             "merged_from" := VStr source_name;
             "merged_to" := VStr target_name ]} in
        (JObj [ ("status", JStr "success");
                ("merged_person_name", JStr target_name);
                ("details", JStr (Person.str (Context.deref context target_person))) ],
         context)
  end
  end.

(** *** The handler table and the binding of keyword arguments *)

(** A handler as the dispatcher sees it: its name, its parameters before
    [context] (with [true] for one without a default), and the call with
    the keyword arguments bound to them. *)
Record handler := {
  handler_name : string;
  handler_params : list (string * bool);
  handler_call : list (string * json) → Context.t → option (json * Context.t)
}.

(** The value bound to a [str] parameter ([dflt] is its default, [None]
    for a required one) and to an [Optional[str] = None] parameter.  The
    result is [None] when the value is of another type than the
    parameter's annotation: Python binds it all the same, and such calls
    are outside this embedding. *)
Definition arg_str (kwargs : list (string * json)) (key : string)
    (dflt : option string) : option string :=
  match dict_get key kwargs with
  | Some (JStr s) => Some s
  | Some _ => None
  | None => dflt
  end.

Definition arg_opt_str (kwargs : list (string * json)) (key : string)
    : option (option string) :=
  match dict_get key kwargs with
  | Some (JStr s) => Some (Some s)
  | Some JNull => Some None
  | Some _ => None
  | None => Some None
  end.

Definition create_person_handler : handler :=
  {| handler_name := "create_person";
     handler_params :=
       [("name", true); ("description", false); ("role", false); ("speaker_id", false)];
     handler_call kwargs context :=
       name ← arg_str kwargs "name" None;
       description ← arg_str kwargs "description" (Some EmptyString);
       role ← arg_str kwargs "role" (Some EmptyString);
       speaker_id ← arg_str kwargs "speaker_id" (Some EmptyString);
       Some (create_person name description role speaker_id context) |}.

Definition update_person_handler : handler :=
  {| handler_name := "update_person";
     handler_params :=
       [("person_name", true); ("name", false); ("description", false);
        ("role", false); ("speaker_id", false); ("quote", false)];
     handler_call kwargs context :=
       person_name ← arg_str kwargs "person_name" None;
       name ← arg_opt_str kwargs "name";
       description ← arg_opt_str kwargs "description";
       role ← arg_opt_str kwargs "role";
       speaker_id ← arg_opt_str kwargs "speaker_id";
       quote ← arg_opt_str kwargs "quote";
       Some (update_person person_name name description role speaker_id quote context) |}.

Definition lookup_person_handler `{!PyRuntime} : handler :=
  {| handler_name := "lookup_person";
     handler_params := [("keyword", true)];
     handler_call kwargs context :=
       keyword ← arg_str kwargs "keyword" None;
       Some (lookup_person keyword context) |}.

Definition merge_persons_handler : handler :=
  {| handler_name := "merge_persons";
     handler_params := [("source_name", true); ("target_name", true)];
     handler_call kwargs context :=
       source_name ← arg_str kwargs "source_name" None;
       target_name ← arg_str kwargs "target_name" None;
       Some (merge_persons source_name target_name context) |}.

Definition tool_handlers `{!PyRuntime} : gmap string handler :=
  list_to_map
    [ (ToolName_value CREATE_PERSON, create_person_handler);
      (ToolName_value UPDATE_PERSON, update_person_handler);
      (ToolName_value LOOKUP_PERSON, lookup_person_handler);
      (ToolName_value MERGE_PERSONS, merge_persons_handler) ].

(** What the call of [h] with the unpacked [args_dict] and
    [context=context] does before the body runs: the keyword arguments
    when they fit the signature, the [TypeError] otherwise.  [json.loads]
    yields every key of an object once. *)
Definition bind_kwargs (h : handler) (args_dict : json)
    : TypeError + list (string * json) :=
  match args_dict with
  | JObj kwargs =>
      if bool_decide ("context" ∈ kwargs.*1) then
        inl (MultipleValues (handler_name h) "context")
      else
        match filter (λ kw, kw ∉ (handler_params h).*1) kwargs.*1 with
        | kw :: _ => inl (UnexpectedKeyword (handler_name h) kw)
        | [] =>
            match filter (λ p, p.2 = true ∧ p.1 ∉ kwargs.*1) (handler_params h) with
            | [] => inr kwargs
            | missing => inl (MissingRequired (handler_name h) missing.*1)
            end
        end
  | v => inl (NotAMapping (handler_name h) v)
  end.

(** ** pipeline.py *)

(** [tool_call.function] and [tool_call] of a model response. *)
Record function_call := {
  function_name : string;
  function_arguments : string
}.

Record tool_call := {
  tool_call_id : string;
  tool_call_type : string;
  tool_call_function : function_call
}.

(** [choices[0].message] of a response. *)
Record assistant_message := {
  message_content : option string;
  message_tool_calls : option (list tool_call)
}.

(** The dictionaries of the message list: system and user messages, the
    assistant's turn with its tool calls, a tool result, and the final
    assistant message. *)
Inductive message :=
| ChatMessage (role content : string)
| AssistantTurn (content : option string) (tool_calls : option (list tool_call))
| ToolMessage (tool_call_id content : string)
| AssistantFinal (content : option string).

(** The keyword arguments of [client.chat.completions.create]. *)
Record completion_args := {
  args_model : string;
  args_messages : list message;
  args_tools : option (list tool_schema);
  args_tool_choice : option string
}.

(** The completion service; a response is given by the message of its
    first choice. *)
Class ModelBoundary := {
  chat_completions_create : completion_args → assistant_message
}.

Definition get_completion `{!ModelBoundary} (messages : list message) (model : string)
    (tools : option (list tool_schema)) (tool_choice : option string)
    : assistant_message :=
  let has_tools := match tools with Some (_ :: _) => true | _ => false end in
  let has_choice := match tool_choice with Some s => truthy s | None => false end in
  chat_completions_create
    {| args_model := model;
       args_messages := messages;
       args_tools := if has_tools then tools else None;
       args_tool_choice := if has_tools && has_choice then tool_choice else None |}.

(** [handle_tool_call] returns the tool message, the handler's result (or
    [None]) and the store after the call.  A [TypeError] of the call is
    caught here; the handlers raise nothing else on arguments of their
    declared types.  The outer [option] is [None] only for a payload that
    binds a value of another type than [str] to a parameter (see
    [arg_str]). *)
Definition handle_tool_call `{!PyRuntime} (tool_call : tool_call) (context : Context.t)
    : option (message * option json * Context.t) :=
  let tool_name := function_name (tool_call_function tool_call) in
  match json_loads (function_arguments (tool_call_function tool_call)) with
  | None =>
      let error_msg := "Error: Invalid JSON arguments for tool " +:+ tool_name +:+ ": "
                       +:+ function_arguments (tool_call_function tool_call) in
      Some (ToolMessage (tool_call_id tool_call)
                        (json_dumps (JObj [("error", JStr error_msg)])),
            None, context)
  | Some args_dict =>
      match tool_handlers !! tool_name with
      | Some handler =>
          match bind_kwargs handler args_dict with
          | inl e =>
              let error_msg := "Error calling handler for " +:+ tool_name +:+ ": "
                               +:+ TypeError_str e in
              Some (ToolMessage (tool_call_id tool_call)
                                (json_dumps (JObj [("error", JStr error_msg)])),
                    None, context)
          | inr kwargs =>
              '(result, context) ← handler_call handler kwargs context;
              Some (ToolMessage (tool_call_id tool_call)
                                (json_dumps (JObj [("result", result)])),
                    Some result, context)
          end
      | None =>
          let error_msg := "Error: Unknown tool '" +:+ tool_name +:+ "' requested." in
          Some (ToolMessage (tool_call_id tool_call)
                            (json_dumps (JObj [("error", JStr error_msg)])),
                None, context)
      end
  end.

Definition task_loop `{!PyRuntime, !ModelBoundary} (messages : list message)
    (model : string) (context : Context.t)
    : option (list message * option string * Context.t) :=
  let tool_schemas_list : list tool_schema := snd <$> tool_definitions in
  let assistant_msg_obj :=
    get_completion messages model (Some tool_schemas_list) (Some "auto") in
  let assistant_tool_calls :=
    match message_tool_calls assistant_msg_obj with
    | Some (tc :: tcs) => Some (tc :: tcs)
    | _ => None
    end in
  let messages : list message :=
    messages ++ [AssistantTurn (message_content assistant_msg_obj) assistant_tool_calls] in
  let final_content := message_content assistant_msg_obj in
  match message_tool_calls assistant_msg_obj with
  | Some (tool_call :: _) =>
      '(tool_result_msg, _, context) ← handle_tool_call tool_call context;
      let messages : list message := messages ++ [tool_result_msg] in
      let follow_up := get_completion messages model None None in
      let final_content := message_content follow_up in
      let messages : list message := messages ++ [AssistantFinal final_content] in
      Some (messages, final_content, context)
  | _ => Some (messages, final_content, context)
  end.

(** [run_pipeline] with the system prompt [prompts[PromptName.DEFAULT]]
    as a parameter: a fresh store, the two opening messages, one turn. *)
Definition run_pipeline `{!PyRuntime, !ModelBoundary} (system_prompt : string)
    (input_data : string) (model : string) : option (option string) :=
  let context := Context.init in
  let messages := [ChatMessage "system" system_prompt; ChatMessage "user" input_data] in
  '(_, final_content, _) ← task_loop messages model context;
  Some final_content.

(** ** A runtime to evaluate the pipeline on concrete calls

    A decoder and an encoder for JSON text made of ASCII characters, with
    the escapes of one character and without [\u] escapes.  The theorems
    below hold for any runtime; this one runs the definitions on explicit
    payloads. *)

Module Json.

Definition dquote : ascii := "034"%char.
Definition backslash : ascii := "092"%char.

Definition is_ws (c : ascii) : bool :=
  bool_decide (c = " "%char ∨ c = "009"%char ∨ c = "010"%char ∨ c = "013"%char).

Fixpoint skip_ws (s : string) : string :=
  match s with
  | String c rest => if is_ws c then skip_ws rest else s
  | EmptyString => s
  end.

Definition is_digit (c : ascii) : bool :=
  bool_decide (48 ≤ nat_of_ascii c ≤ 57)%nat.

(** The longest prefix of digits and what follows it. *)
Fixpoint span_digits (s : string) : string * string :=
  match s with
  | String c rest =>
      if is_digit c then let '(ds, rest) := span_digits rest in (String c ds, rest)
      else (EmptyString, s)
  | EmptyString => (EmptyString, s)
  end.

Definition Z_of_digits (ds : string) : Z :=
  fold_left (λ acc c, 10 * acc + Z.of_nat (nat_of_ascii c - 48))%Z
            (list_ascii_of_string ds) 0%Z.

(** A number: an optional minus sign, the integer part (a single zero, or
    digits that start with a non-zero one), an optional fraction (a dot
    and digits) and an optional exponent. *)
Definition parse_number (s : string) : option (json * string) :=
  let '(sign, s) := match s with
                    | String "-"%char rest => ("-", rest)
                    | _ => (EmptyString, s)
                    end in
  let '(ds, rest) := span_digits s in
  match ds with
  | EmptyString => None
  | String d ds' =>
      let '(int, rest) :=
        if bool_decide (d = "0"%char) then ("0", ds' +:+ rest) else (ds, rest) in
      let '(frac, rest) :=
        match rest with
        | String "."%char rest' =>
            match span_digits rest' with
            | (String f fs, rest'') => ("." +:+ String f fs, rest'')
            | _ => (EmptyString, rest)
            end
        | _ => (EmptyString, rest)
        end in
      let '(exp, rest) :=
        match rest with
        | String e rest' =>
            if bool_decide (e = "e"%char ∨ e = "E"%char) then
              let '(esign, rest'') :=
                match rest' with
                | String "+"%char r => ("+", r)
                | String "-"%char r => ("-", r)
                | _ => (EmptyString, rest')
                end in
              match span_digits rest'' with
              | (String x xs, r) => (String e esign +:+ String x xs, r)
              | _ => (EmptyString, rest)
              end
            else (EmptyString, rest)
        | _ => (EmptyString, rest)
        end in
      match frac, exp with
      | EmptyString, EmptyString =>
          Some (JInt (if bool_decide (sign = "-") then - Z_of_digits int
                      else Z_of_digits int)%Z, rest)
      | _, _ => Some (JFloat (sign +:+ int +:+ frac +:+ exp), rest)
      end
  end.

(** The characters of a string literal after its opening quote. *)
Fixpoint parse_string (s : string) : option (string * string) :=
  match s with
  | EmptyString => None
  | String c rest =>
      if bool_decide (c = dquote) then Some (EmptyString, rest)
      else if bool_decide (c = backslash) then
        match rest with
        | String e rest' =>
            let unescaped :=
              if bool_decide (e = dquote) then Some dquote
              else if bool_decide (e = backslash) then Some backslash
              else if bool_decide (e = "/"%char) then Some "/"%char
              else if bool_decide (e = "b"%char) then Some "008"%char
              else if bool_decide (e = "f"%char) then Some "012"%char
              else if bool_decide (e = "n"%char) then Some "010"%char
              else if bool_decide (e = "r"%char) then Some "013"%char
              else if bool_decide (e = "t"%char) then Some "009"%char
              else None in
            u ← unescaped;
            '(str, rest'') ← parse_string rest';
            Some (String u str, rest'')
        | EmptyString => None
        end
      else if bool_decide (nat_of_ascii c < 32)%nat then None
      else '(str, rest') ← parse_string rest; Some (String c str, rest')
  end.

(** [d[k] = v] on a dict given by its items: a key met again keeps its
    place and takes the new value. *)
Fixpoint dict_set (k : string) (v : json) (fields : list (string * json))
    : list (string * json) :=
  match fields with
  | [] => [(k, v)]
  | (k', v') :: rest =>
      if bool_decide (k' = k) then (k, v) :: rest else (k', v') :: dict_set k v rest
  end.

(** The members of an object after its opening brace, and the items of
    an array after its opening bracket; [value] decodes one value. *)
Fixpoint parse_members (value : string → option (json * string)) (fuel : nat)
    (acc : list (string * json)) (s : string) : option (json * string) :=
  match fuel with
  | O => None
  | S fuel =>
      match skip_ws s with
      | String c rest =>
          if bool_decide (c = dquote) then
            '(k, rest) ← parse_string rest;
            match skip_ws rest with
            | String ":"%char rest =>
                '(v, rest) ← value rest;
                let acc := dict_set k v acc in
                match skip_ws rest with
                | String ","%char rest => parse_members value fuel acc rest
                | String "}"%char rest => Some (JObj acc, rest)
                | _ => None
                end
            | _ => None
            end
          else None
      | EmptyString => None
      end
  end.

Fixpoint parse_items (value : string → option (json * string)) (fuel : nat)
    (acc : list json) (s : string) : option (json * string) :=
  match fuel with
  | O => None
  | S fuel =>
      '(v, rest) ← value s;
      let acc := acc ++ [v] in
      match skip_ws rest with
      | String ","%char rest => parse_items value fuel acc rest
      | String "]"%char rest => Some (JArr acc, rest)
      | _ => None
      end
  end.

Definition strip_prefix (p s : string) : option string :=
  if String.prefix p s then Some (String.substring (String.length p)
                                    (String.length s - String.length p) s)
  else None.

Fixpoint parse_value (fuel : nat) (s : string) : option (json * string) :=
  match fuel with
  | O => None
  | S fuel =>
      let s := skip_ws s in
      match s with
      | EmptyString => None
      | String c rest =>
          if bool_decide (c = dquote) then
            '(str, rest) ← parse_string rest; Some (JStr str, rest)
          else if bool_decide (c = "{"%char) then
            match skip_ws rest with
            | String "}"%char rest => Some (JObj [], rest)
            | _ => parse_members (parse_value fuel) (String.length s) [] rest
            end
          else if bool_decide (c = "["%char) then
            match skip_ws rest with
            | String "]"%char rest => Some (JArr [], rest)
            | _ => parse_items (parse_value fuel) (String.length s) [] rest
            end
          else
            match strip_prefix "null" s, strip_prefix "true" s, strip_prefix "false" s with
            | Some rest, _, _ => Some (JNull, rest)
            | _, Some rest, _ => Some (JBool true, rest)
            | _, _, Some rest => Some (JBool false, rest)
            | _, _, _ =>
                match strip_prefix "NaN" s, strip_prefix "Infinity" s,
                      strip_prefix "-Infinity" s with
                | Some rest, _, _ => Some (JFloat "NaN", rest)
                | _, Some rest, _ => Some (JFloat "Infinity", rest)
                | _, _, Some rest => Some (JFloat "-Infinity", rest)
                | _, _, _ => parse_number s
                end
            end
      end
  end.

(** [json.loads]: one value, then nothing but white space. *)
Definition loads (s : string) : option json :=
  '(v, rest) ← parse_value (S (String.length s)) s;
  match skip_ws rest with
  | EmptyString => Some v
  | String _ _ => None
  end.

(** [json.dumps] with its default separators. *)
Definition hex_digit (n : nat) : ascii :=
  ascii_of_nat (if bool_decide (n < 10)%nat then 48 + n else 87 + n).

Definition escape_char (c : ascii) : string :=
  if bool_decide (c = dquote) then String backslash (String dquote EmptyString)
  else if bool_decide (c = backslash) then String backslash (String backslash EmptyString)
  else if bool_decide (c = "010"%char) then String backslash "n"
  else if bool_decide (c = "013"%char) then String backslash "r"
  else if bool_decide (c = "009"%char) then String backslash "t"
  else if bool_decide (c = "008"%char) then String backslash "b"
  else if bool_decide (c = "012"%char) then String backslash "f"
  else if bool_decide (32 ≤ nat_of_ascii c ≤ 126)%nat then String c EmptyString
  else String backslash "u00"
         +:+ String (hex_digit (nat_of_ascii c / 16))
               (String (hex_digit (nat_of_ascii c mod 16)) EmptyString).

Fixpoint escape (s : string) : string :=
  match s with
  | EmptyString => EmptyString
  | String c rest => escape_char c +:+ escape rest
  end.

Definition quoted (s : string) : string :=
  String dquote (escape s) +:+ String dquote EmptyString.

Definition str_of_Z (n : Z) : string :=
  match n with
  | Z0 => "0"
  | Zpos p => str_of_nat (Pos.to_nat p)
  | Zneg p => "-" +:+ str_of_nat (Pos.to_nat p)
  end.

Definition join (sep : string) (parts : list string) : string :=
  match parts with
  | [] => EmptyString
  | p :: ps => fold_left (λ acc q, acc +:+ sep +:+ q) ps p
  end.

Fixpoint dumps (v : json) : string :=
  match v with
  | JNull => "null"
  | JBool true => "true"
  | JBool false => "false"
  | JInt n => str_of_Z n
  | JFloat literal => literal
  | JStr s => quoted s
  | JArr items => "[" +:+ join ", " (map dumps items) +:+ "]"
  | JObj fields =>
      "{" +:+ join ", " (map (λ kv, quoted kv.1 +:+ ": " +:+ dumps kv.2) fields) +:+ "}"
  end.

End Json.

(** [str.lower] on ASCII text. *)
Definition ascii_lower (c : ascii) : ascii :=
  if bool_decide (65 ≤ nat_of_ascii c ≤ 90)%nat then ascii_of_nat (nat_of_ascii c + 32)
  else c.

Fixpoint ascii_str_lower (s : string) : string :=
  match s with
  | EmptyString => EmptyString
  | String c rest => String (ascii_lower c) (ascii_str_lower rest)
  end.

(** The texts CPython gives the four [TypeError]s of a call. *)
Definition type_name (v : json) : string :=
  match v with
  | JNull => "NoneType"
  | JBool _ => "bool"
  | JInt _ => "int"
  | JFloat _ => "float"
  | JStr _ => "str"
  | JArr _ => "list"
  | JObj _ => "dict"
  end.

Fixpoint and_list (names : list string) : string :=
  match names with
  | [] => EmptyString
  | [a] => "'" +:+ a +:+ "'"
  | [a; b] => "'" +:+ a +:+ "' and '" +:+ b +:+ "'"
  | a :: rest =>
      "'" +:+ a +:+ "', " +:+
      match rest with
      | [b; c] => "'" +:+ b +:+ "', and '" +:+ c +:+ "'"
      | _ => and_list rest
      end
  end.

Definition cpython_TypeError_str (e : TypeError) : string :=
  match e with
  | NotAMapping fn v =>
      "handlers." +:+ fn +:+ "() argument after ** must be a mapping, not " +:+ type_name v
  | MultipleValues fn kw =>
      "handlers." +:+ fn +:+ "() got multiple values for keyword argument '" +:+ kw +:+ "'"
  | UnexpectedKeyword fn kw =>
      fn +:+ "() got an unexpected keyword argument '" +:+ kw +:+ "'"
  | MissingRequired fn params =>
      fn +:+ "() missing " +:+ str_of_nat (length params) +:+ " required positional argument"
         +:+ (if bool_decide (length params = 1%nat) then ": " else "s: ")
         +:+ and_list params
  end.

Definition py_runtime : PyRuntime :=
  {| json_loads := Json.loads;
     json_dumps := Json.dumps;
     str_lower := ascii_str_lower;
     TypeError_str := cpython_TypeError_str |}.

(** A JSON string literal and a JSON object of string members, to write
    payloads down. *)
Definition jstr (s : string) : string := Json.quoted s.

Definition jobj (members : list (string * string)) : string :=
  "{" +:+ Json.join ", " (map (λ kv, jstr kv.1 +:+ ": " +:+ kv.2) members) +:+ "}".

(** ** Observations and concrete stores *)

(** A handler's result is an error result when its dictionary has the
    key error, and carries a status otherwise. *)
Definition is_error (result : json) : bool :=
  match result with
  | JObj fields => bool_decide (is_Some (dict_get "error" fields))
  | _ => false
  end.

Definition status_of (result : json) : option json :=
  match result with
  | JObj fields => dict_get "status" fields
  | _ => None
  end.

(** A store whose people dictionary has one fresh instance per entry,
    which is what [build_context_from_transcript] of main.py puts under
    the key people: the key of an entry (there a speaker id) need not be
    the name of its instance. *)
Definition seeded (entries : list (string * Person.t)) : Context.t :=
  fold_left (λ context entry,
               let '(person, context) := Context.new context entry.2 in
               Context.set_people context
                 (<[entry.1 := person]> (Context.get_people context ∅)))
            entries Context.init.

(** A model boundary that answers the call that offers tools with
    [first] and the call without tools with [second]. *)
Definition scripted (first second : assistant_message) : ModelBoundary :=
  {| chat_completions_create args :=
       match args_tools args with
       | Some _ => first
       | None => second
       end |}.

Definition call (id name arguments : string) : tool_call :=
  {| tool_call_id := id;
     tool_call_type := "function";
     tool_call_function :=
       {| function_name := name; function_arguments := arguments |} |}.

(** Stores and calls to evaluate the handlers on. *)
Definition store_A : Context.t :=
  seeded [("A", Person.init "A" EmptyString EmptyString EmptyString)].

Definition store_friends : Context.t :=
  seeded [ ("Alice", Person.mk "Alice" "tall" "engineer" EmptyString ["hi"]);
           ("Bob", Person.init "Bob" EmptyString "manager" EmptyString) ].

(** Keys that are speaker ids, as the transcript step makes them. *)
Definition store_speakers : Context.t :=
  seeded [ ("S1", Person.mk "Speaker 1" EmptyString EmptyString "S1" ["Good afternoon."]);
           ("S2", Person.mk "Robert Chen" EmptyString "Civilian Driver" "S2" []) ].

(** The same after [create_person] for the name of speaker S2. *)
Definition store_two_chens : Context.t :=
  (create_person "Robert Chen" EmptyString EmptyString EmptyString store_speakers).2.

Definition ann : Person.t := Person.mk "Ann" EmptyString EmptyString "S1" ["hello"; "bye"].
Definition driver : Person.t :=
  Person.mk EmptyString "driver" EmptyString EmptyString ["bye"; "later"; "later"].
Definition ann_twice : Person.t :=
  Person.add_quote
    (Person.add_quote (Person.init "Ann" EmptyString EmptyString EmptyString) "hi") "hi".
Definition bob : Person.t := Person.init "Bob" EmptyString EmptyString EmptyString.
Definition witness3 : Person.t :=
  Person.mk EmptyString "tall" EmptyString "S3" ["a"].
Definition nameless : Person.t :=
  Person.mk EmptyString EmptyString EmptyString EmptyString ["a"; "b"].

(** Two responses of the model: a turn with two tool calls, and a final
    answer. *)
Definition two_calls : assistant_message :=
  {| message_content := None;
     message_tool_calls :=
       Some [ call "call_1" "create_person"
                   (jobj [("name", jstr "Charlie"); ("role", jstr "project manager")]);
              call "call_2" "create_person" (jobj [("name", jstr "Dana")]) ] |}.

Definition answer : assistant_message :=
  {| message_content := Some "Created Charlie."; message_tool_calls := None |}.

Definition scripted_model : ModelBoundary := scripted two_calls answer.

Definition charlie_messages : list message :=
  [ ChatMessage "system" "You are a helpful assistant.";
    ChatMessage "user" "Create Charlie, a project manager" ].

(** Keyword arguments whose values are all strings, as the schemas of
    [tool_definitions] ask for. *)
Definition string_valued (kwargs : list (string * json)) : Prop :=
  Forall (λ kv, ∃ s, kv.2 = JStr s) kwargs.

(** One round of the loop of [Person.merge] over the quotes of the other
    instance, on the list of quotes alone. *)
Definition add_unique (qs : list string) (quote : string) : list string :=
  if bool_decide (quote ∈ qs) then qs else qs ++ [quote].

(** ** Invariant, observations and inputs for the further properties *)

(** The shape of a store that the handlers build: every reference of the
    people dictionary denotes an instance of the object store, and no
    instance is referred to under two keys. *)
Definition store_ok (context : Context.t) : Prop :=
  (∀ key person,
     Context.get_people context ∅ !! key = Some person →
     person ∈ dom (Context.objs context))
  ∧ (∀ key1 key2 person,
       Context.get_people context ∅ !! key1 = Some person →
       Context.get_people context ∅ !! key2 = Some person →
       key1 = key2).

(** The test of [lookup_person] on one entry of the people dictionary:
    the lowered keyword is in the lowered key, description or role. *)
Definition keyword_hit `{!PyRuntime} (keyword : string) (context : Context.t)
    (entry : string * ref) : bool :=
  let keyword_lower := str_lower keyword in
  let person := Context.deref context entry.2 in
  str_contains keyword_lower (str_lower entry.1)
  || str_contains keyword_lower (str_lower (Person.description person))
  || str_contains keyword_lower (str_lower (Person.role person)).

(** The dictionary [lookup_person] appends to its results for a match. *)
Definition person_summary (person : Person.t) : json :=
  JObj [ ("name", JStr (Person.name person));
         ("role", JStr (Person.role person));
         ("description", JStr (Person.description person)) ].

(** Keyword arguments that fit a schema of [tool_definitions]: every key
    is a property, every required property is there, every value is a
    string. *)
Definition conforms_to_schema (schema : tool_schema) (kwargs : list (string * json))
    : Prop :=
  (∀ k, k ∈ kwargs.*1 → k ∈ (schema_properties schema).*1)
  ∧ (∀ p, p ∈ schema_required schema → p ∈ kwargs.*1)
  ∧ string_valued kwargs.


Definition charlie_call : tool_call :=
  call "call_1" "create_person"
       (jobj [("name", jstr "Charlie"); ("role", jstr "project manager")]).

Definition context_call : tool_call :=
  call "call_3" "create_person" (jobj [("name", jstr "Eve"); ("context", jstr "mine")]).

Definition array_call : tool_call := call "call_4" "merge_persons" "[1, 2]".

(** * Properties *)

(** ** [Person.merge] *)

Section merge.

Implicit Types self other : Person.t.
Implicit Types qs : list string.

Lemma merge_loop_quotes other_quotes self :
  Person.quotes
    (fold_left (λ self quote,
                  if bool_decide (quote ∈ Person.quotes self) then self
                  else Person.add_quote self quote) other_quotes self)
  = fold_left add_unique other_quotes (Person.quotes self).
Proof.
  revert self; induction other_quotes as [|q qs IH]; intros self; [done|].
  cbn [fold_left]. rewrite IH. f_equal.
  unfold add_unique. by case_bool_decide.
Qed.

Lemma merge_loop_scalars other_quotes self :
  let self' :=
    fold_left (λ self quote,
                 if bool_decide (quote ∈ Person.quotes self) then self
                 else Person.add_quote self quote) other_quotes self in
  Person.name self' = Person.name self
  ∧ Person.description self' = Person.description self
  ∧ Person.role self' = Person.role self
  ∧ Person.speaker_id self' = Person.speaker_id self.
Proof.
  revert self; induction other_quotes as [|q qs IH]; intros self; [done|].
  cbn [fold_left].
  destruct (IH (if bool_decide (q ∈ Person.quotes self) then self
                else Person.add_quote self q)) as (Hn & Hd & Hr & Hs).
  cbn zeta. rewrite Hn, Hd, Hr, Hs. by case_bool_decide.
Qed.

Lemma setattr_quotes self key value :
  Person.quotes (Person.setattr self key value) = Person.quotes self.
Proof. by destruct key. Qed.

Lemma merge_quotes self other :
  Person.quotes (Person.merge self other)
  = fold_left add_unique (Person.quotes other) (Person.quotes self).
Proof.
  unfold Person.merge. rewrite merge_loop_quotes. f_equal.
  repeat match goal with
         | |- context [if ?b then _ else _] => destruct b
         end; by rewrite ?setattr_quotes.
Qed.

Lemma elem_of_add_unique qs q x : x ∈ add_unique qs q ↔ x ∈ qs ∨ x = q.
Proof.
  unfold add_unique. case_bool_decide; [|set_solver].
  split; [by left|]. intros [?| ->]; done.
Qed.

Lemma elem_of_fold_add_unique other_quotes qs x :
  x ∈ fold_left add_unique other_quotes qs ↔ x ∈ qs ∨ x ∈ other_quotes.
Proof.
  revert qs; induction other_quotes as [|q os IH]; intros qs; cbn [fold_left].
  - set_solver.
  - rewrite IH, elem_of_add_unique. set_solver.
Qed.

Lemma NoDup_add_unique qs q : NoDup qs → NoDup (add_unique qs q).
Proof.
  intros Hqs. unfold add_unique. case_bool_decide; [done|].
  apply NoDup_app. split_and!; [done| |apply NoDup_singleton].
  intros x Hx ->%list_elem_of_singleton. done.
Qed.

Lemma NoDup_fold_add_unique other_quotes qs :
  NoDup qs → NoDup (fold_left add_unique other_quotes qs).
Proof.
  revert qs; induction other_quotes as [|q os IH]; intros qs Hqs; [done|].
  cbn [fold_left]. by apply IH, NoDup_add_unique.
Qed.

(** Merging an instance into itself changes nothing, so [merge] as a
    function of two values also covers a receiver and an argument that
    are one and the same object. *)
Lemma merge_loop_present other_quotes self :
  (∀ q, q ∈ other_quotes → q ∈ Person.quotes self) →
  fold_left (λ self quote,
               if bool_decide (quote ∈ Person.quotes self) then self
               else Person.add_quote self quote) other_quotes self
  = self.
Proof.
  induction other_quotes as [|q qs IH]; intros Hin; [done|].
  cbn [fold_left]. rewrite bool_decide_true by (apply Hin; left).
  apply IH. intros q' Hq'. apply Hin. by right.
Qed.

(** X3.  [E.merge(E)] leaves [E] as it is: no field and no quote
    changes when an instance is merged into itself. *)
Lemma merge_self self : Person.merge self self = self.
Proof.
  destruct self as [name description role speaker_id quotes].
  unfold Person.merge.
  destruct name, description, role, speaker_id; cbn -[fold_left];
    by apply merge_loop_present.
Qed.

End merge.

(** C6 (as amended).  After [E.merge(E')] the quotes of [E], taken as a
    set of strings, are the union of the quotes of both instances, and
    the list has no duplicate when the quotes of [E] had none before:
    the merge appends a quote of [E'] only when it is not yet in the list,
    and leaves a duplicate that [add_quote] put in [E] earlier where it
    is. *)
Theorem merge_quotes_union (E E' : Person.t) :
  list_to_set (Person.quotes (Person.merge E E'))
    =@{gset string} list_to_set (Person.quotes E) ∪ list_to_set (Person.quotes E')
  ∧ (NoDup (Person.quotes E) → NoDup (Person.quotes (Person.merge E E'))).
Proof.
  rewrite merge_quotes. split.
  - apply set_eq. intros x.
    rewrite elem_of_union, !elem_of_list_to_set. apply elem_of_fold_add_unique.
  - apply NoDup_fold_add_unique.
Qed.

Lemma merge_quotes_union_witness :
  NoDup (Person.quotes ann)
  ∧ Person.quotes (Person.merge ann driver) = ["hello"; "bye"; "later"]
  ∧ NoDup (Person.quotes (Person.merge ann driver)).
Proof.
  assert (Hann : NoDup (Person.quotes ann)).
  { repeat (apply NoDup_cons; split; [set_solver|]). apply NoDup_nil_2. }
  split; [exact Hann|]. split; [reflexivity|].
  exact (proj2 (merge_quotes_union ann driver) Hann).
Defined.

(** C6 as stated fails: a quote that is twice in the receiver (two calls
    of [add_quote]) is still twice in it after a merge. *)
Lemma merge_quotes_duplicates_kept :
  ¬ (list_to_set (Person.quotes (Person.merge ann_twice bob))
       =@{gset string} list_to_set (Person.quotes ann_twice)
                        ∪ list_to_set (Person.quotes bob)
     ∧ NoDup (Person.quotes (Person.merge ann_twice bob))).
Proof.
  intros [_ Hnodup].
  change (Person.quotes (Person.merge ann_twice bob)) with ["hi"; "hi"] in Hnodup.
  apply NoDup_cons in Hnodup as [Hin _]. apply Hin. left.
Qed.

(** C8.  Merging an instance whose name, description, role and
    speaker_id are all empty leaves the four scalar fields of the
    receiver as they were. *)
Theorem merge_empty_scalars (E E' : Person.t) :
  Person.name E' = EmptyString →
  Person.description E' = EmptyString →
  Person.role E' = EmptyString →
  Person.speaker_id E' = EmptyString →
  Person.name (Person.merge E E') = Person.name E
  ∧ Person.description (Person.merge E E') = Person.description E
  ∧ Person.role (Person.merge E E') = Person.role E
  ∧ Person.speaker_id (Person.merge E E') = Person.speaker_id E.
Proof.
  intros Hn Hd Hr Hs. unfold Person.merge.
  rewrite Hn, Hd, Hr, Hs. cbn [truthy andb].
  apply merge_loop_scalars.
Qed.

Lemma merge_empty_scalars_witness :
  Person.merge witness3 nameless = Person.mk EmptyString "tall" EmptyString "S3" ["a"; "b"]
  ∧ Person.name (Person.merge witness3 nameless) = Person.name witness3
  ∧ Person.description (Person.merge witness3 nameless) = Person.description witness3
  ∧ Person.role (Person.merge witness3 nameless) = Person.role witness3
  ∧ Person.speaker_id (Person.merge witness3 nameless) = Person.speaker_id witness3.
Proof.
  split; [reflexivity|].
  apply (merge_empty_scalars witness3 nameless); reflexivity.
Defined.

(** ** The handlers *)

Implicit Types context : Context.t.
Implicit Types people : gmap string ref.

Lemma get_people_Some context people dflt :
  Context.people context = Some people → Context.get_people context dflt = people.
Proof. unfold Context.get_people. by intros ->. Qed.

(** An entry that is found was found in the dictionary the store holds. *)
Lemma get_people_lookup context key person :
  Context.get_people context ∅ !! key = Some person →
  Context.people context = Some (Context.get_people context ∅).
Proof.
  unfold Context.get_people. destruct (Context.people context); cbn; [done|].
  by rewrite lookup_empty.
Qed.

Lemma deref_mutate context r f :
  Context.deref (Context.mutate context r f) r = f (Context.deref context r).
Proof. unfold Context.deref, Context.mutate; cbn. apply lookup_total_insert_eq. Qed.

Lemma deref_set_people context people r :
  Context.deref (Context.set_people context people) r = Context.deref context r.
Proof. reflexivity. Qed.

Lemma deref_update context values r :
  Context.deref (Context.update context values) r = Context.deref context r.
Proof. reflexivity. Qed.

Create Rewrite HintDb store.
#[local] Hint Rewrite deref_mutate deref_set_people deref_update : store.

Lemma updates_of_rename cur N description role speaker_id :
  N ≠ cur →
  updates_of cur (Some N) description role speaker_id
  = (Person.Name, N) :: updates_of cur None description role speaker_id.
Proof. intros HN. unfold updates_of. by rewrite bool_decide_true. Qed.

Lemma updates_of_same cur description role speaker_id :
  updates_of cur (Some cur) description role speaker_id
  = updates_of cur None description role speaker_id.
Proof. unfold updates_of. by rewrite bool_decide_false by (intros H; by apply H). Qed.

Lemma updates_name_here N us : updates_name ((Person.Name, N) :: us) = Some N.
Proof. reflexivity. Qed.

Lemma add_data_rename_name p cur N description role speaker_id :
  Person.name
    (Person.add_data p ((Person.Name, N) :: updates_of cur None description role speaker_id))
  = N.
Proof. by destruct description, role, speaker_id. Qed.

Lemma add_quote_name p quote : Person.name (Person.add_quote p quote) = Person.name p.
Proof. reflexivity. Qed.

#[local] Hint Rewrite add_quote_name : store.

(** What [update_person] returns when it renames: the name differs from
    the instance's and from the key. *)
Lemma update_person_rename context people K N person description role speaker_id quote :
  Context.people context = Some people →
  people !! K = Some person →
  N ≠ Person.name (Context.deref context person) →
  N ≠ K →
  let result := update_person K (Some N) description role speaker_id quote context in
  status_of result.1 = Some (JStr "success")
  ∧ is_error result.1 = false
  ∧ Context.people result.2 = Some (<[N := person]> (delete K people))
  ∧ Person.name (Context.deref result.2 person) = N.
Proof.
  intros Hpeople HK HN HNK result. subst result.
  unfold update_person.
  rewrite (get_people_Some _ _ _ Hpeople), HK.
  rewrite (updates_of_rename _ _ _ _ _ HN).
  rewrite updates_name_here, bool_decide_true by done.
  destruct quote as [quote|];
    cbn -[updates_of Person.add_data Context.deref Context.mutate];
    split_and!; try done;
    autorewrite with store; apply add_data_rename_name.
Qed.

(** [merge_persons] with twice the same name: the two lookups come
    first, the comparison of the names after them. *)
Lemma merge_persons_self_found context name person :
  Context.get_people context ∅ !! name = Some person →
  merge_persons name name context
  = (JObj [("error", JStr ("Cannot merge person '" +:+ name +:+ "' into themself."))],
     context).
Proof.
  intros Hfound. unfold merge_persons. rewrite Hfound.
  by rewrite bool_decide_true.
Qed.

Lemma merge_persons_source_missing context source_name target_name :
  Context.get_people context ∅ !! source_name = None →
  merge_persons source_name target_name context
  = (JObj [("error", JStr ("Source person '" +:+ source_name
                           +:+ "' not found. Cannot merge."))],
     context).
Proof. intros Hmissing. unfold merge_persons. by rewrite Hmissing. Qed.

(** An error result of [update_person] or [merge_persons] comes with the
    store it was called on. *)
Lemma update_person_error_unchanged context person_name name description role
    speaker_id quote :
  is_error (update_person person_name name description role speaker_id quote context).1
    = true →
  (update_person person_name name description role speaker_id quote context).2 = context.
Proof.
  unfold update_person.
  destruct (Context.get_people context ∅ !! person_name) as [person|]; [|done].
  destruct (updates_of _ name description role speaker_id) as [|u us];
    [|destruct (updates_name (u :: us)) as [new_name|];
      [destruct (bool_decide (new_name ≠ person_name))|]];
    destruct quote; cbn; done.
Qed.

Lemma merge_persons_error_unchanged context source_name target_name :
  is_error (merge_persons source_name target_name context).1 = true →
  (merge_persons source_name target_name context).2 = context.
Proof.
  unfold merge_persons.
  destruct (Context.get_people context ∅ !! source_name); [|done].
  destruct (Context.get_people context ∅ !! target_name); [|done].
  case_bool_decide; cbn; done.
Qed.


(** X10.  [update_person] answers with an error result exactly when
    [person_name] is not a key of the people dictionary, whatever the
    other arguments are. *)
Lemma update_person_error_iff context person_name name description role
    speaker_id quote :
  is_error (update_person person_name name description role speaker_id quote context).1
    = true
  ↔ Context.get_people context ∅ !! person_name = None.
Proof.
  unfold update_person.
  destruct (Context.get_people context ∅ !! person_name) as [person|]; [|done].
  destruct (updates_of _ name description role speaker_id) as [|u us];
    [|destruct (updates_name (u :: us)) as [new_name|];
      [destruct (bool_decide (new_name ≠ person_name))|]];
    destruct quote; cbn; done.
Qed.

(** X11.  [merge_persons] answers with an error result exactly when the
    source is not a key, or the target is not a key, or the two names are
    the same. *)
Lemma merge_persons_error_iff context source_name target_name :
  is_error (merge_persons source_name target_name context).1 = true
  ↔ Context.get_people context ∅ !! source_name = None
    ∨ Context.get_people context ∅ !! target_name = None
    ∨ source_name = target_name.
Proof.
  unfold merge_persons.
  destruct (Context.get_people context ∅ !! source_name); [|naive_solver].
  destruct (Context.get_people context ∅ !! target_name); [|naive_solver].
  case_bool_decide; cbn; naive_solver.
Qed.

(** C1 (as amended).  When the people dictionary has an entry for the
    name, [merge_persons] with that name as source and as target returns
    the self-merge error and leaves the store as it is.  (Without such an
    entry the call returns the source-not-found error: the lookups come
    before the comparison of the two names.) *)
Theorem merge_persons_self context name person :
  Context.get_people context ∅ !! name = Some person →
  merge_persons name name context
  = (JObj [("error", JStr ("Cannot merge person '" +:+ name +:+ "' into themself."))],
     context).
Proof. apply merge_persons_self_found. Qed.

Lemma merge_persons_self_witness :
  Context.get_people store_A ∅ !! "A" = Some 1%positive
  ∧ merge_persons "A" "A" store_A
    = (JObj [("error", JStr "Cannot merge person 'A' into themself.")], store_A).
Proof.
  assert (H : Context.get_people store_A ∅ !! "A" = Some 1%positive)
    by (vm_compute; reflexivity).
  split; [exact H|]. exact (merge_persons_self store_A "A" 1%positive H).
Defined.

(** C1 as stated fails: on a store without an entry for the name, the
    result is the source-not-found error, not the self-merge error. *)
Lemma merge_persons_self_absent :
  merge_persons "A" "A" Context.init
  = (JObj [("error", JStr "Source person 'A' not found. Cannot merge.")], Context.init)
  ∧ (merge_persons "A" "A" Context.init).1
    ≠ JObj [("error", JStr "Cannot merge person 'A' into themself.")].
Proof.
  rewrite merge_persons_source_missing by apply lookup_empty.
  split; [reflexivity|]. cbn. intros [=].
Qed.

(** C10.  An error result of [update_person] (person not found) or of
    [merge_persons] (source or target not found, source equal to target)
    comes with the store unchanged: the instances, the people dictionary
    and the bookkeeping keys are what they were before the call. *)
Theorem domain_error_leaves_store context :
  (∀ person_name name description role speaker_id quote,
     is_error (update_person person_name name description role speaker_id quote
                             context).1 = true →
     (update_person person_name name description role speaker_id quote context).2
     = context)
  ∧ (∀ source_name target_name,
       is_error (merge_persons source_name target_name context).1 = true →
       (merge_persons source_name target_name context).2 = context).
Proof.
  split.
  - intros *. apply update_person_error_unchanged.
  - intros *. apply merge_persons_error_unchanged.
Qed.

Lemma domain_error_leaves_store_witness :
  (is_error (update_person "Carol" (Some "Caroline") None None None (Some "hi")
                           store_friends).1 = true
   ∧ (update_person "Carol" (Some "Caroline") None None None (Some "hi")
                    store_friends).2 = store_friends)
  ∧ (is_error (merge_persons "Alice" "Carol" store_friends).1 = true
     ∧ (merge_persons "Alice" "Carol" store_friends).2 = store_friends)
  ∧ (is_error (merge_persons "Bob" "Bob" store_friends).1 = true
     ∧ (merge_persons "Bob" "Bob" store_friends).2 = store_friends).
Proof.
  pose proof (domain_error_leaves_store store_friends) as [Hupdate Hmerge].
  assert (H1 : is_error (update_person "Carol" (Some "Caroline") None None None
                           (Some "hi") store_friends).1 = true)
    by (vm_compute; reflexivity).
  assert (H2 : is_error (merge_persons "Alice" "Carol" store_friends).1 = true)
    by (vm_compute; reflexivity).
  assert (H3 : is_error (merge_persons "Bob" "Bob" store_friends).1 = true)
    by (vm_compute; reflexivity).
  split_and!; [exact H1|exact (Hupdate _ _ _ _ _ _ H1)
              |exact H2|exact (Hmerge _ _ H2)
              |exact H3|exact (Hmerge _ _ H3)].
Defined.

(** [update_person] with nothing to change. *)
Lemma update_person_absent_fields context person_name person :
  Context.get_people context ∅ !! person_name = Some person →
  update_person person_name None None None None None context
  = (JObj [ ("status", JStr "no_change");
            ("message", JStr ("No updates provided for " +:+ person_name)) ],
     context).
Proof. intros Hfound. unfold update_person. by rewrite Hfound. Qed.

(** C4 (as amended).  On a store with an entry for [person_name],
    [update_person] with every optional field and the quote absent
    returns the result with status no_change, which carries no error key
    and whose status is not success, and leaves the store as it is.  (A
    call that names a field the handler does not take never reaches this
    result: the dispatcher reports it as an error.) *)
Theorem update_person_no_change context person_name person :
  Context.get_people context ∅ !! person_name = Some person →
  let result := update_person person_name None None None None None context in
  result = (JObj [ ("status", JStr "no_change");
                   ("message", JStr ("No updates provided for " +:+ person_name)) ],
            context)
  ∧ status_of result.1 = Some (JStr "no_change")
  ∧ status_of result.1 ≠ Some (JStr "success")
  ∧ is_error result.1 = false.
Proof.
  intros Hfound result. subst result.
  rewrite (update_person_absent_fields _ _ _ Hfound). split_and!; done.
Qed.

Lemma update_person_no_change_witness :
  Context.get_people store_friends ∅ !! "Bob" = Some 2%positive
  ∧ update_person "Bob" None None None None None store_friends
    = (JObj [ ("status", JStr "no_change");
              ("message", JStr "No updates provided for Bob") ],
       store_friends).
Proof.
  assert (H : Context.get_people store_friends ∅ !! "Bob" = Some 2%positive)
    by (vm_compute; reflexivity).
  split; [exact H|].
  exact (proj1 (update_person_no_change store_friends "Bob" 2%positive H)).
Defined.

(** C5 (as amended).  On a store whose people dictionary has an entry
    under [K], [update_person] with a new name [N] that differs from the
    instance's current name and from [K] succeeds and leaves a dictionary
    without [K] and with the same instance under [N]; every other key is
    as before, and the instance is referred to under [N] and under the
    keys other than [K] that referred to it before, nowhere else. *)
Theorem update_person_rekeys context people K N person
    description role speaker_id quote :
  Context.people context = Some people →
  people !! K = Some person →
  N ≠ Person.name (Context.deref context person) →
  N ≠ K →
  let result := update_person K (Some N) description role speaker_id quote context in
  let people' := Context.get_people result.2 ∅ in
  status_of result.1 = Some (JStr "success")
  ∧ people' !! K = None
  ∧ people' !! N = Some person
  ∧ (∀ k, k ≠ K → k ≠ N → people' !! k = people !! k)
  ∧ (∀ k, people' !! k = Some person ↔ k = N ∨ (k ≠ K ∧ people !! k = Some person))
  ∧ Person.name (Context.deref result.2 person) = N.
Proof.
  intros Hpeople HK HN HNK result people'.
  destruct (update_person_rename context people K N person description role
              speaker_id quote Hpeople HK HN HNK) as (Hstatus & _ & Hpeople' & Hname).
  fold result in Hstatus, Hpeople', Hname.
  assert (Heq : people' = <[N := person]> (delete K people))
    by (subst people'; by rewrite (get_people_Some _ _ _ Hpeople')).
  rewrite Heq. split_and!; [done| | | | |done].
  - by rewrite lookup_insert_ne, lookup_delete_eq.
  - by rewrite lookup_insert_eq.
  - intros k HkK HkN. by rewrite lookup_insert_ne, lookup_delete_ne.
  - intros k. destruct (decide (k = N)) as [->|HkN].
    + rewrite lookup_insert_eq. naive_solver.
    + rewrite lookup_insert_ne by done.
      destruct (decide (k = K)) as [->|HkK].
      * rewrite lookup_delete_eq. naive_solver.
      * rewrite lookup_delete_ne by done. naive_solver.
Qed.

Lemma update_person_rekeys_witness :
  let result := update_person "S1" (Some "Officer Johnson") None (Some "Police Officer")
                              None None store_speakers in
  Context.get_people store_speakers ∅ !! "S1" = Some 1%positive
  ∧ Context.get_people result.2 ∅ !! "S1" = None
  ∧ Context.get_people result.2 ∅ !! "Officer Johnson" = Some 1%positive
  ∧ Person.name (Context.deref result.2 1%positive) = "Officer Johnson".
Proof.
  intros result.
  assert (Hpeople : Context.people store_speakers
                    = Some (Context.get_people store_speakers ∅))
    by (vm_compute; reflexivity).
  assert (HK : Context.get_people store_speakers ∅ !! "S1" = Some 1%positive)
    by (vm_compute; reflexivity).
  assert (HN : "Officer Johnson" ≠ Person.name (Context.deref store_speakers 1%positive))
    by (vm_compute; intros [=]).
  assert (HNK : "Officer Johnson" ≠ "S1") by (intros [=]).
  destruct (update_person_rekeys store_speakers _ "S1" "Officer Johnson" 1%positive
              None (Some "Police Officer") None None Hpeople HK HN HNK)
    as (_ & Hold & Hnew & _ & _ & Hname).
  split_and!; [exact HK|exact Hold|exact Hnew|exact Hname].
Defined.

(** C5 as stated fails: with [N] equal to the key [K] and different from
    the instance's name (a store keyed by speaker ids), the name is set
    and the entry stays under [K]. *)
Lemma update_person_rename_to_key :
  let result := update_person "S1" (Some "S1") None None None None store_speakers in
  Context.get_people store_speakers ∅ !! "S1" = Some 1%positive
  ∧ Person.name (Context.deref store_speakers 1%positive) = "Speaker 1"
  ∧ status_of result.1 = Some (JStr "success")
  ∧ Person.name (Context.deref result.2 1%positive) = "S1"
  ∧ Context.get_people result.2 ∅ !! "S1" = Some 1%positive
  ∧ Context.get_people result.2 ∅ !! "S1" ≠ None.
Proof. vm_compute. split_and!; done. Qed.

(** C9 (as amended).  On a store whose people dictionary has different
    instances under the keys [P] and [Q], [update_person] with
    [person_name = P] and [name = Q], where [Q] is not already the name
    of the instance under [P], succeeds without an error result;
    afterwards [P] is absent, [Q] refers to the renamed instance, the
    instance that was under [Q] is no longer under it, and the dictionary
    has one entry less. *)
Theorem update_person_overwrites context people P Q p q
    description role speaker_id quote :
  Context.people context = Some people →
  people !! P = Some p →
  people !! Q = Some q →
  p ≠ q →
  Q ≠ Person.name (Context.deref context p) →
  let result := update_person P (Some Q) description role speaker_id quote context in
  let people' := Context.get_people result.2 ∅ in
  status_of result.1 = Some (JStr "success")
  ∧ is_error result.1 = false
  ∧ people' !! P = None
  ∧ people' !! Q = Some p
  ∧ (∀ k, people' !! k = Some q → k ≠ Q ∧ people !! k = Some q)
  ∧ S (size people') = size people.
Proof.
  intros Hpeople HP HQ Hpq HQname result people'.
  assert (HQP : Q ≠ P) by (intros ->; congruence).
  destruct (update_person_rename context people P Q p description role
              speaker_id quote Hpeople HP HQname HQP)
    as (Hstatus & Herror & Hpeople' & _).
  fold result in Hstatus, Herror, Hpeople'.
  assert (Heq : people' = <[Q := p]> (delete P people))
    by (subst people'; by rewrite (get_people_Some _ _ _ Hpeople')).
  rewrite Heq. split_and!; [done|done| | | |].
  - by rewrite lookup_insert_ne, lookup_delete_eq.
  - by rewrite lookup_insert_eq.
  - intros k. destruct (decide (k = Q)) as [->|HkQ].
    + rewrite lookup_insert_eq. congruence.
    + rewrite lookup_insert_ne by done.
      destruct (decide (k = P)) as [->|HkP].
      * by rewrite lookup_delete_eq.
      * by rewrite lookup_delete_ne.
  - rewrite map_size_insert_Some by (by rewrite lookup_delete_ne).
    rewrite map_size_delete_Some by done.
    assert (size people ≠ 0) by (apply map_size_ne_0_lookup_2 with P; done).
    lia.
Qed.

Lemma update_person_overwrites_witness :
  let result := update_person "Alice" (Some "Bob") None None None None store_friends in
  Context.get_people store_friends ∅ !! "Alice" = Some 1%positive
  ∧ Context.get_people store_friends ∅ !! "Bob" = Some 2%positive
  ∧ is_error result.1 = false
  ∧ Context.get_people result.2 ∅ !! "Alice" = None
  ∧ Context.get_people result.2 ∅ !! "Bob" = Some 1%positive
  ∧ S (size (Context.get_people result.2 ∅)) = size (Context.get_people store_friends ∅).
Proof.
  intros result.
  assert (Hpeople : Context.people store_friends
                    = Some (Context.get_people store_friends ∅))
    by (vm_compute; reflexivity).
  assert (HP : Context.get_people store_friends ∅ !! "Alice" = Some 1%positive)
    by (vm_compute; reflexivity).
  assert (HQ : Context.get_people store_friends ∅ !! "Bob" = Some 2%positive)
    by (vm_compute; reflexivity).
  assert (Hpq : 1%positive ≠ 2%positive) by (intros [=]).
  assert (HQname : "Bob" ≠ Person.name (Context.deref store_friends 1%positive))
    by (vm_compute; intros [=]).
  destruct (update_person_overwrites store_friends _ "Alice" "Bob" 1%positive 2%positive
              None None None None Hpeople HP HQ Hpq HQname)
    as (_ & Herror & Hold & Hnew & _ & Hsize).
  split_and!; [exact HP|exact HQ|exact Herror|exact Hold|exact Hnew|exact Hsize].
Defined.

(** C9 as stated fails: when [Q] is already the name of the instance
    under [P] (a speaker keyed by its id, and a second entry keyed by
    that name), the call changes nothing: the result is no_change and
    both entries stay. *)
Lemma update_person_same_name_keeps_both :
  let result := update_person "S2" (Some "Robert Chen") None None None None
                              store_two_chens in
  Context.get_people store_two_chens ∅ !! "S2" = Some 2%positive
  ∧ Context.get_people store_two_chens ∅ !! "Robert Chen" = Some 3%positive
  ∧ status_of result.1 = Some (JStr "no_change")
  ∧ result.2 = store_two_chens
  ∧ Context.get_people result.2 ∅ !! "Robert Chen" = Some 3%positive
  ∧ size (Context.get_people result.2 ∅) = size (Context.get_people store_two_chens ∅)
  ∧ ¬ (status_of result.1 = Some (JStr "success")
       ∧ Context.get_people result.2 ∅ !! "Robert Chen" = Some 2%positive
       ∧ S (size (Context.get_people result.2 ∅))
         = size (Context.get_people store_two_chens ∅)).
Proof. vm_compute. split_and!; try done. intros ([=] & _). Qed.

(** ** The dispatcher and the loop *)

Section pipeline.

Context `{!PyRuntime}.

Lemma tool_handlers_lookup name :
  tool_handlers !! name
  = if bool_decide (name = "create_person") then Some create_person_handler
    else if bool_decide (name = "update_person") then Some update_person_handler
    else if bool_decide (name = "lookup_person") then Some lookup_person_handler
    else if bool_decide (name = "merge_persons") then Some merge_persons_handler
    else None.
Proof.
  unfold tool_handlers. cbn [list_to_map foldr ToolName_value uncurry].
  repeat case_bool_decide; subst;
    rewrite ?lookup_insert_eq; try done;
    repeat (rewrite lookup_insert_ne by done); rewrite ?lookup_insert_eq; done.
Qed.

(** The names of the table are the values of [ToolName]. *)
Lemma tool_handlers_None name :
  tool_handlers !! name = None ↔ ∀ t, name ≠ ToolName_value t.
Proof.
  rewrite tool_handlers_lookup. split.
  - intros Hnone t ->. destruct t; cbn in Hnone; done.
  - intros Hall. repeat case_bool_decide; subst; try done.
    + by destruct (Hall CREATE_PERSON).
    + by destruct (Hall UPDATE_PERSON).
    + by destruct (Hall LOOKUP_PERSON).
    + by destruct (Hall MERGE_PERSONS).
Qed.


(** C7.  When the payload parses and the tool name is not a key of
    [tool_handlers], the dispatcher returns the tool message whose
    content is the unknown-tool error with that name, returns no handler
    result, and leaves the store as it is. *)
Theorem handle_tool_call_unknown_tool (tc : tool_call) (context : Context.t)
    (args_dict : json) :
  json_loads (function_arguments (tool_call_function tc)) = Some args_dict →
  tool_handlers !! function_name (tool_call_function tc) = None →
  handle_tool_call tc context
  = Some (ToolMessage (tool_call_id tc)
            (json_dumps
               (JObj [("error",
                       JStr ("Error: Unknown tool '"
                             +:+ function_name (tool_call_function tc)
                             +:+ "' requested."))])),
          None, context).
Proof. intros Hloads Hunknown. unfold handle_tool_call. by rewrite Hloads, Hunknown. Qed.

Context `{!ModelBoundary}.

(** C2.  When the first response carries two or more tool calls, the
    loop hands the first one to [handle_tool_call] and no other: the
    store it returns is the store after that one call, and the message
    list gains the assistant's turn, the one tool message of the first
    call, and the final answer of the second response. *)
Theorem task_loop_first_call_only (messages : list message) (model : string)
    (context : Context.t) (content : option string) (tc tc' : tool_call)
    (rest : list tool_call) :
  get_completion messages model (Some (snd <$> tool_definitions)) (Some "auto")
  = {| message_content := content;
       message_tool_calls := Some (tc :: tc' :: rest) |} →
  task_loop messages model context
  = '(tool_result_msg, _, context') ← handle_tool_call tc context;
    let history :=
      messages ++ [AssistantTurn content (Some (tc :: tc' :: rest)); tool_result_msg] in
    let final_content := message_content (get_completion history model None None) in
    Some (history ++ [AssistantFinal final_content], final_content, context').
Proof.
  intros Hfirst. unfold task_loop. rewrite Hfirst. cbn [message_tool_calls message_content].
  destruct (handle_tool_call tc context) as [[[tool_result_msg result] context']|];
    [|done].
  cbn. by rewrite <-!app_assoc.
Qed.

End pipeline.

(** The same through the dispatcher: a payload with [person_name] alone
    reaches the handler and comes back as the no_change result. *)
Lemma handle_tool_call_update_no_change `{!PyRuntime} (tc : tool_call)
    (context : Context.t) (person_name : string) (person : ref) :
  function_name (tool_call_function tc) = "update_person" →
  json_loads (function_arguments (tool_call_function tc))
  = Some (JObj [("person_name", JStr person_name)]) →
  Context.get_people context ∅ !! person_name = Some person →
  let no_change :=
    JObj [ ("status", JStr "no_change");
           ("message", JStr ("No updates provided for " +:+ person_name)) ] in
  handle_tool_call tc context
  = Some (ToolMessage (tool_call_id tc) (json_dumps (JObj [("result", no_change)])),
          Some no_change, context).
Proof.
  intros Hname Hloads Hfound no_change. unfold handle_tool_call.
  rewrite Hloads, Hname.
  replace (tool_handlers !! "update_person") with (Some update_person_handler)
    by (by rewrite tool_handlers_lookup).
  change (bind_kwargs update_person_handler (JObj [("person_name", JStr person_name)]))
    with (@inr TypeError _ [("person_name", JStr person_name)]).
  cbv beta iota.
  change (handler_call update_person_handler [("person_name", JStr person_name)] context)
    with (Some (update_person person_name None None None None None context)).
  by rewrite (update_person_absent_fields context person_name person Hfound).
Qed.

(** *** The dispatcher returns on every payload of strings

    [handle_tool_call] is [None] only for a payload that binds a value
    that is not a string to a parameter.  On a payload whose values are
    all strings it returns, whatever the tool name and the keys. *)

Lemma dict_get_Some key kwargs v : dict_get key kwargs = Some v → (key, v) ∈ kwargs.
Proof.
  induction kwargs as [|[k v'] kwargs IH]; cbn; [done|].
  case_bool_decide; [intros [= ->]; subst; left|intros ?; right; auto].
Qed.

Lemma dict_get_None key kwargs : dict_get key kwargs = None → key ∉ kwargs.*1.
Proof.
  induction kwargs as [|[k v'] kwargs IH]; cbn; [intros _; apply not_elem_of_nil|].
  case_bool_decide; [done|]. intros Hnone. apply not_elem_of_cons. auto.
Qed.

Lemma arg_str_string_valued kwargs key dflt :
  string_valued kwargs →
  key ∈ kwargs.*1 ∨ is_Some dflt →
  is_Some (arg_str kwargs key dflt).
Proof.
  intros Hstr Hkey. unfold arg_str.
  destruct (dict_get key kwargs) as [v|] eqn:Hget.
  - apply dict_get_Some in Hget.
    destruct (proj1 (Forall_forall _ _) Hstr _ Hget) as [s Hs]. cbn in Hs. by subst.
  - apply dict_get_None in Hget. by destruct Hkey.
Qed.

Lemma arg_opt_str_string_valued kwargs key :
  string_valued kwargs → is_Some (arg_opt_str kwargs key).
Proof.
  intros Hstr. unfold arg_opt_str.
  destruct (dict_get key kwargs) as [v|] eqn:Hget; [|done].
  apply dict_get_Some in Hget.
  destruct (proj1 (Forall_forall _ _) Hstr _ Hget) as [s Hs]. cbn in Hs. by subst.
Qed.

Lemma bind_kwargs_inr h args_dict kwargs :
  bind_kwargs h args_dict = inr kwargs →
  args_dict = JObj kwargs ∧ ∀ p, (p, true) ∈ handler_params h → p ∈ kwargs.*1.
Proof.
  unfold bind_kwargs. destruct args_dict as [| | | | | |kw]; try done.
  case_bool_decide; [done|].
  destruct (filter _ kw.*1); [|done].
  destruct (filter _ (handler_params h)) as [|m ms] eqn:Hfilter; [|done].
  intros [= <-]. split; [done|]. intros p Hp.
  destruct (decide (p ∈ kw.*1)) as [|Hnot]; [done|].
  assert (Hin : (p, true) ∈ filter (λ p : string * bool, p.2 = true ∧ p.1 ∉ kw.*1)
                                  (handler_params h))
    by (apply list_elem_of_filter; done).
  rewrite Hfilter in Hin. by apply elem_of_nil in Hin.
Qed.

Ltac bound_str Hstr Hreq key :=
  let s := fresh "s" in
  let Hs := fresh "Hs" in
  destruct (arg_str_string_valued _ key None Hstr) as [s Hs];
  [left; apply Hreq; cbn; set_solver|rewrite Hs; clear Hs; cbn [mbind option_bind]].

Ltac bound_default Hstr key dflt :=
  let s := fresh "s" in
  let Hs := fresh "Hs" in
  destruct (arg_str_string_valued _ key (Some dflt) Hstr) as [s Hs];
  [by right|rewrite Hs; clear Hs; cbn [mbind option_bind]].

Ltac bound_opt Hstr key :=
  let s := fresh "s" in
  let Hs := fresh "Hs" in
  destruct (arg_opt_str_string_valued _ key Hstr) as [s Hs];
  rewrite Hs; clear Hs; cbn [mbind option_bind].

Lemma handle_tool_call_string_valued `{!PyRuntime} (tc : tool_call) (context : Context.t) :
  (∀ kwargs, json_loads (function_arguments (tool_call_function tc)) = Some (JObj kwargs) →
             string_valued kwargs) →
  is_Some (handle_tool_call tc context).
Proof.
  intros Hvalues. unfold handle_tool_call.
  destruct (json_loads _) as [args_dict|]; [|done].
  rewrite tool_handlers_lookup.
  repeat case_bool_decide; try done.
  all: match goal with
       | |- context [bind_kwargs ?h ?a] =>
           destruct (bind_kwargs h a) as [e|kwargs] eqn:Hbind; [done|];
           apply bind_kwargs_inr in Hbind as [-> Hreq];
           specialize (Hvalues kwargs eq_refl)
       end.
  all: cbn [handler_call create_person_handler update_person_handler
            lookup_person_handler merge_persons_handler].
  - bound_str Hvalues Hreq "name".
    bound_default Hvalues "description" EmptyString.
    bound_default Hvalues "role" EmptyString.
    bound_default Hvalues "speaker_id" EmptyString.
    by destruct (create_person _ _ _ _ _).
  - bound_str Hvalues Hreq "person_name".
    bound_opt Hvalues "name". bound_opt Hvalues "description".
    bound_opt Hvalues "role". bound_opt Hvalues "speaker_id".
    bound_opt Hvalues "quote".
    by destruct (update_person _ _ _ _ _ _ _).
  - bound_str Hvalues Hreq "keyword".
    by destruct (lookup_person _ _).
  - bound_str Hvalues Hreq "source_name". bound_str Hvalues Hreq "target_name".
    by destruct (merge_persons _ _ _).
Qed.



Lemma handle_tool_call_unknown_tool_witness :
  let tc := call "call_8" "delete_person" (jobj [("name", jstr "A")]) in
  @json_loads py_runtime (function_arguments (tool_call_function tc))
  = Some (JObj [("name", JStr "A")])
  ∧ @tool_handlers py_runtime !! "delete_person" = None
  ∧ @handle_tool_call py_runtime tc store_A
    = Some (ToolMessage "call_8"
              (@json_dumps py_runtime
                 (JObj [("error", JStr "Error: Unknown tool 'delete_person' requested.")])),
            None, store_A).
Proof.
  intros tc.
  assert (Hloads : @json_loads py_runtime (function_arguments (tool_call_function tc))
                   = Some (JObj [("name", JStr "A")])) by (vm_compute; reflexivity).
  assert (Hunknown : @tool_handlers py_runtime
                       !! function_name (tool_call_function tc) = None)
    by (vm_compute; reflexivity).
  split; [exact Hloads|]. split; [exact Hunknown|].
  exact (@handle_tool_call_unknown_tool py_runtime tc store_A _ Hloads Hunknown).
Defined.

(** C4 as stated fails for a field the handler does not take: the call
    raises a [TypeError] before the body runs, and the dispatcher turns
    it into an error result; no no_change result is produced. *)
Lemma update_person_unrecognized_field :
  let tc := call "call_9" "update_person"
                 (jobj [("person_name", jstr "A"); ("nickname", jstr "Al")]) in
  Context.get_people store_A ∅ !! "A" = Some 1%positive
  ∧ @json_loads py_runtime (function_arguments (tool_call_function tc))
    = Some (JObj [("person_name", JStr "A"); ("nickname", JStr "Al")])
  ∧ bind_kwargs update_person_handler
      (JObj [("person_name", JStr "A"); ("nickname", JStr "Al")])
    = inl (UnexpectedKeyword "update_person" "nickname")
  ∧ @handle_tool_call py_runtime tc store_A
    = Some (ToolMessage "call_9"
              (@json_dumps py_runtime
                 (JObj [("error",
                         JStr "Error calling handler for update_person: update_person() got an unexpected keyword argument 'nickname'")])),
            None, store_A)
  ∧ ¬ (∃ msg result context',
         @handle_tool_call py_runtime tc store_A = Some (msg, Some result, context')
         ∧ status_of result = Some (JStr "no_change")).
Proof.
  intros tc.
  assert (Hcall : @handle_tool_call py_runtime tc store_A
    = Some (ToolMessage "call_9"
              (@json_dumps py_runtime
                 (JObj [("error",
                         JStr "Error calling handler for update_person: update_person() got an unexpected keyword argument 'nickname'")])),
            None, store_A)) by (vm_compute; reflexivity).
  split_and!; [by vm_compute..|exact Hcall|].
  intros (msg & result & context' & Heq & _). rewrite Hcall in Heq. by inversion Heq.
Qed.


Lemma task_loop_first_call_only_witness :
  @get_completion scripted_model charlie_messages "gpt-4o-mini"
    (Some (snd <$> tool_definitions)) (Some "auto")
  = {| message_content := None;
       message_tool_calls :=
         Some [ call "call_1" "create_person"
                     (jobj [("name", jstr "Charlie"); ("role", jstr "project manager")]);
                call "call_2" "create_person" (jobj [("name", jstr "Dana")]) ] |}
  ∧ @task_loop py_runtime scripted_model charlie_messages "gpt-4o-mini" Context.init
    = '(tool_result_msg, _, context') ←
        @handle_tool_call py_runtime
          (call "call_1" "create_person"
                (jobj [("name", jstr "Charlie"); ("role", jstr "project manager")]))
          Context.init;
      let history :=
        charlie_messages
        ++ [AssistantTurn None (message_tool_calls two_calls); tool_result_msg] in
      let final_content :=
        message_content (@get_completion scripted_model history "gpt-4o-mini" None None) in
      Some (history ++ [AssistantFinal final_content], final_content, context').
Proof.
  assert (Hfirst :
    @get_completion scripted_model charlie_messages "gpt-4o-mini"
      (Some (snd <$> tool_definitions)) (Some "auto")
    = {| message_content := None;
         message_tool_calls :=
           Some [ call "call_1" "create_person"
                       (jobj [("name", jstr "Charlie"); ("role", jstr "project manager")]);
                  call "call_2" "create_person" (jobj [("name", jstr "Dana")]) ] |})
    by reflexivity.
  split; [exact Hfirst|].
  exact (@task_loop_first_call_only py_runtime scripted_model charlie_messages
           "gpt-4o-mini" Context.init None _ _ [] Hfirst).
Defined.

(** The run of the example above: the first call creates Charlie, the
    second call (for Dana) is never dispatched, and the answer of the
    second response is the final content. *)
Example task_loop_charlie :
  ∃ messages context,
    @task_loop py_runtime scripted_model charlie_messages "gpt-4o-mini" Context.init
    = Some (messages, Some "Created Charlie.", context)
    ∧ length messages = 5
    ∧ dom (Context.get_people context ∅) = {["Charlie"]}
    ∧ Context.get_people context ∅ !! "Dana" = None
    ∧ (∃ person, Context.get_people context ∅ !! "Charlie" = Some person
                 ∧ Person.role (Context.deref context person) = "project manager")
    ∧ Context.data context !! "last_result_summary"
      = Some (Context.VStr "Created person: Charlie").
Proof.
  eexists _, _. split; [vm_compute; reflexivity|].
  split_and!; [reflexivity|by vm_compute|by vm_compute| |by vm_compute].
  exists 1%positive. by vm_compute.
Qed.

(** * Further properties of the code *)

(** ** [Person.merge] *)

Lemma merge_scalar_fields (self other : Person.t) :
  Person.name (Person.merge self other)
  = (if truthy (Person.name self) then Person.name self else Person.name other)
  ∧ Person.description (Person.merge self other)
    = (if truthy (Person.description self) then Person.description self
       else Person.description other)
  ∧ Person.role (Person.merge self other)
    = (if truthy (Person.role self) then Person.role self else Person.role other)
  ∧ Person.speaker_id (Person.merge self other)
    = (if truthy (Person.speaker_id self) then Person.speaker_id self
       else Person.speaker_id other).
Proof.
  unfold Person.merge.
  match goal with
  | |- context [fold_left ?f ?l ?a] =>
      destruct (merge_loop_scalars l a) as (-> & -> & -> & ->)
  end.
  destruct self as [n d r s qs], other as [n' d' r' s' qs']. cbn.
  destruct n, n'; cbn; destruct d, d'; cbn; destruct r, r'; cbn; destruct s, s'; cbn;
    repeat split; reflexivity.
Qed.

(** X1.  After [E.merge(E')] each of name, description, role and
    speaker_id of [E] is its old value when that was not empty, and the
    value of [E'] otherwise: the receiver's own data always wins. *)
Theorem merge_takes_missing_scalars (E E' : Person.t) :
  Person.name (Person.merge E E')
  = (if truthy (Person.name E) then Person.name E else Person.name E')
  ∧ Person.description (Person.merge E E')
    = (if truthy (Person.description E) then Person.description E
       else Person.description E')
  ∧ Person.role (Person.merge E E')
    = (if truthy (Person.role E) then Person.role E else Person.role E')
  ∧ Person.speaker_id (Person.merge E E')
    = (if truthy (Person.speaker_id E) then Person.speaker_id E
       else Person.speaker_id E').
Proof.
  unfold Person.merge.
  match goal with
  | |- context [fold_left ?f ?l ?a] =>
      destruct (merge_loop_scalars l a) as (-> & -> & -> & ->)
  end.
  destruct E as [n d r s qs], E' as [n' d' r' s' qs']. cbn.
  destruct n, n'; cbn; destruct d, d'; cbn; destruct r, r'; cbn; destruct s, s'; cbn;
    repeat split; reflexivity.
Qed.

(** A merge that finds nothing to take changes nothing. *)
Lemma merge_nothing_to_take (self other : Person.t) :
  (truthy (Person.name other) = true → truthy (Person.name self) = true) →
  (truthy (Person.description other) = true → truthy (Person.description self) = true) →
  (truthy (Person.role other) = true → truthy (Person.role self) = true) →
  (truthy (Person.speaker_id other) = true → truthy (Person.speaker_id self) = true) →
  (∀ q, q ∈ Person.quotes other → q ∈ Person.quotes self) →
  Person.merge self other = self.
Proof.
  intros Hn Hd Hr Hs Hq. unfold Person.merge.
  assert (Hoff : ∀ a b : bool, (a = true → b = true) → a && negb b = false)
    by (intros [] [] Himp; cbn; try done; by specialize (Himp eq_refl)).
  rewrite (Hoff _ _ Hn). cbv zeta. rewrite (Hoff _ _ Hd), (Hoff _ _ Hr), (Hoff _ _ Hs).
  by apply merge_loop_present.
Qed.

(** X2.  Merging the same instance a second time changes nothing:
    [E.merge(E')] followed by [E.merge(E')] leaves [E] as the first merge
    left it. *)
Theorem merge_idempotent (E E' : Person.t) :
  Person.merge (Person.merge E E') E' = Person.merge E E'.
Proof.
  destruct (merge_scalar_fields E E') as (Hn & Hd & Hr & Hs).
  apply merge_nothing_to_take.
  - rewrite Hn. by destruct (truthy (Person.name E)) eqn:Ht.
  - rewrite Hd. by destruct (truthy (Person.description E)) eqn:Ht.
  - rewrite Hr. by destruct (truthy (Person.role E)) eqn:Ht.
  - rewrite Hs. by destruct (truthy (Person.speaker_id E)) eqn:Ht.
  - intros q Hq. rewrite merge_quotes. apply elem_of_fold_add_unique. by right.
Qed.

Lemma fold_add_unique_appends (other_quotes qs : list string) :
  ∃ added,
    fold_left add_unique other_quotes qs = qs ++ added
    ∧ NoDup added
    ∧ (∀ q, q ∈ added ↔ q ∈ other_quotes ∧ q ∉ qs)
    ∧ (length added ≤ length other_quotes)%nat.
Proof.
  revert qs. induction other_quotes as [|o os IH]; intros qs; cbn [fold_left].
  - exists []. rewrite app_nil_r. split_and!; [done|apply NoDup_nil_2| |done].
    intros q. set_solver.
  - destruct (IH (add_unique qs o)) as (added & Heq & Hnodup & Hin & Hlen).
    unfold add_unique in *. case_bool_decide as Ho.
    + exists added. split_and!; [done|done| |cbn; lia].
      intros q. rewrite Hin. set_solver.
    + exists (o :: added). rewrite Heq, <-app_assoc. split_and!; [done| | |cbn; lia].
      * apply NoDup_cons. split; [|done]. rewrite Hin. set_solver.
      * intros q. rewrite elem_of_cons, Hin.
        destruct (decide (q = o)) as [->|]; set_solver.
Qed.

(** X4.  [E.merge(E')] keeps the quotes of [E] in place and order and
    appends to them, each once, exactly the quotes of [E'] that [E] did
    not have; so the list grows by at most the number of quotes of
    [E']. *)
Theorem merge_appends_new_quotes (E E' : Person.t) :
  ∃ added,
    Person.quotes (Person.merge E E') = Person.quotes E ++ added
    ∧ NoDup added
    ∧ (∀ q, q ∈ added ↔ q ∈ Person.quotes E' ∧ q ∉ Person.quotes E)
    ∧ (length added ≤ length (Person.quotes E'))%nat.
Proof. rewrite merge_quotes. apply fold_add_unique_appends. Qed.

(** ** [Context] *)

Lemma get_update_here context (values : gmap string Context.value) key v dflt :
  values !! key = Some v → Context.get (Context.update context values) key dflt = v.
Proof.
  intros Hv. unfold Context.get, Context.update; cbn.
  by rewrite (lookup_union_Some_l _ _ _ _ Hv).
Qed.

(** X5.  [get] after [set] returns the value set under that key and the
    old answer under any other key; [get] after [update] returns the
    value of the given dictionary where it has the key and the old answer
    elsewhere; [update] with a dictionary extended by one entry is
    [update] followed by [set]; [update] with the empty dictionary
    changes nothing. *)
Theorem context_get_after_write context key key' v dflt
    (values : gmap string Context.value) :
  Context.get (Context.set context key v) key' dflt
    = (if bool_decide (key' = key) then v else Context.get context key' dflt)
  ∧ Context.get (Context.update context values) key' dflt
    = default (Context.get context key' dflt) (values !! key')
  ∧ Context.update context (<[key := v]> values)
    = Context.set (Context.update context values) key v
  ∧ Context.update context ∅ = context.
Proof.
  unfold Context.get, Context.set, Context.update; cbn. split_and!.
  - case_bool_decide as Hk; [subst; by rewrite lookup_insert_eq|].
    by rewrite lookup_insert_ne.
  - rewrite lookup_union. by destruct (values !! key'), (Context.data context !! key').
  - by rewrite insert_union_l.
  - rewrite (left_id_L ∅ (∪)). by destruct context.
Qed.

(** ** The handlers *)

Lemma deref_mutate_ne context r r' f :
  r' ≠ r → Context.deref (Context.mutate context r f) r' = Context.deref context r'.
Proof.
  intros Hne. unfold Context.deref, Context.mutate; cbn.
  by rewrite lookup_total_insert_ne.
Qed.

Lemma dom_objs_mutate context r f :
  dom (Context.objs (Context.mutate context r f)) = {[r]} ∪ dom (Context.objs context).
Proof. unfold Context.mutate; cbn. apply dom_insert_L. Qed.

Lemma objs_set_people context people :
  Context.objs (Context.set_people context people) = Context.objs context.
Proof. reflexivity. Qed.

Lemma objs_update context values :
  Context.objs (Context.update context values) = Context.objs context.
Proof. reflexivity. Qed.

Lemma get_people_mutate context r f dflt :
  Context.get_people (Context.mutate context r f) dflt = Context.get_people context dflt.
Proof. reflexivity. Qed.

Lemma get_people_set_people context people dflt :
  Context.get_people (Context.set_people context people) dflt = people.
Proof. reflexivity. Qed.

Lemma get_people_update context values dflt :
  Context.get_people (Context.update context values) dflt = Context.get_people context dflt.
Proof. reflexivity. Qed.

#[local] Hint Rewrite dom_objs_mutate objs_set_people objs_update get_people_mutate
  get_people_set_people get_people_update : store.

(** The paths of [update_person] on an entry that exists: the name given
    and new or not, each other field given or not, the new name equal to
    the key or not, a quote or none. *)
Ltac update_person_cases name description role speaker_id quote :=
  unfold update_person, updates_of;
  lazymatch goal with
  | Hfound : Context.get_people _ ∅ !! _ = Some _ |- _ => rewrite Hfound
  end;
  destruct name as [?name|]; [once case_bool_decide|];
  destruct description as [?description|], role as [?role|],
    speaker_id as [?speaker_id|]; cbn [app];
  rewrite ?updates_name_here;
  try (change (updates_name ?l) with (@None string));
  cbv beta iota;
  try (once case_bool_decide);
  destruct quote as [?quote|];
  cbn -[Context.deref Context.mutate Context.set_people Context.update Person.add_data].

Lemma create_person_result name description role speaker_id context :
  let result := create_person name description role speaker_id context in
  ∃ person,
    (person ∉ dom (Context.objs context))
    ∧ status_of result.1 = Some (JStr "success")
    ∧ is_error result.1 = false
    ∧ Context.people result.2
      = Some (<[name := person]> (Context.get_people context ∅))
    ∧ Context.deref result.2 person = Person.init name description role speaker_id
    ∧ (∀ r, r ≠ person → Context.deref result.2 r = Context.deref context r)
    ∧ size (Context.get_people result.2 ∅)
      = (if bool_decide (is_Some (Context.get_people context ∅ !! name))
         then size (Context.get_people context ∅)
         else S (size (Context.get_people context ∅))).
Proof.
  intros result. exists (fresh (dom (Context.objs context))).
  split; [apply is_fresh|]. subst result. unfold create_person.
  cbn -[fresh]. unfold Context.deref; cbn -[fresh].
  rewrite lookup_total_insert_eq.
  split_and!; try done.
  - intros r Hr. by rewrite lookup_total_insert_ne.
  - case_bool_decide as Hin.
    + by apply map_size_insert_Some.
    + apply map_size_insert_None. by apply eq_None_not_Some.
Qed.

(** X6.  [create_person] never fails: it makes a new instance with the
    given fields and no quotes, puts it under the name (replacing an
    entry that was there: the last write wins, and the dictionary grows
    by one only when the name was free), and leaves every other instance
    as it was. *)
Theorem create_person_adds name description role speaker_id context :
  let result := create_person name description role speaker_id context in
  ∃ person,
    (person ∉ dom (Context.objs context))
    ∧ status_of result.1 = Some (JStr "success")
    ∧ is_error result.1 = false
    ∧ Context.people result.2
      = Some (<[name := person]> (Context.get_people context ∅))
    ∧ Context.deref result.2 person = Person.init name description role speaker_id
    ∧ (∀ r, r ≠ person → Context.deref result.2 r = Context.deref context r)
    ∧ size (Context.get_people result.2 ∅)
      = (if bool_decide (is_Some (Context.get_people context ∅ !! name))
         then size (Context.get_people context ∅)
         else S (size (Context.get_people context ∅))).
Proof.
  intros result. exists (fresh (dom (Context.objs context))).
  split; [apply is_fresh|]. subst result. unfold create_person.
  cbn -[fresh]. unfold Context.deref; cbn -[fresh].
  rewrite lookup_total_insert_eq.
  split_and!; try done.
  - intros r Hr. by rewrite lookup_total_insert_ne.
  - case_bool_decide as Hin.
    + by apply map_size_insert_Some.
    + apply map_size_insert_None. by apply eq_None_not_Some.
Qed.

(** X7.  On an entry that exists, [update_person] sets each of name,
    description, role and speaker_id that is given and keeps each that is
    absent, appends the quote when one is given (also a quote that is
    already there), and changes no other instance. *)
Theorem update_person_fields context K person name description role speaker_id quote :
  Context.get_people context ∅ !! K = Some person →
  let result := update_person K name description role speaker_id quote context in
  let old := Context.deref context person in
  let new := Context.deref result.2 person in
  Person.name new = default (Person.name old) name
  ∧ Person.description new = default (Person.description old) description
  ∧ Person.role new = default (Person.role old) role
  ∧ Person.speaker_id new = default (Person.speaker_id old) speaker_id
  ∧ Person.quotes new = Person.quotes old ++ option_list quote
  ∧ (∀ r, r ≠ person → Context.deref result.2 r = Context.deref context r).
Proof.
  intros Hfound result old new. subst result old new.
  update_person_cases name description role speaker_id quote.
  all: autorewrite with store; cbn.
  all: split_and!; try done.
  all: try (by rewrite app_nil_r).
  all: intros r Hr;
    repeat (rewrite deref_update || rewrite deref_set_people
            || rewrite (deref_mutate_ne _ _ _ _ Hr)); done.
Qed.

Lemma update_person_fields_witness :
  Context.get_people store_friends ∅ !! "Alice" = Some 1%positive
  ∧ Context.deref
      (update_person "Alice" None (Some "short") None None (Some "hi") store_friends).2
      1%positive
    = Person.mk "Alice" "short" "engineer" EmptyString ["hi"; "hi"]
  ∧ Person.quotes
      (Context.deref
         (update_person "Alice" None (Some "short") None None (Some "hi")
                        store_friends).2 1%positive)
    = Person.quotes (Context.deref store_friends 1%positive) ++ ["hi"].
Proof.
  assert (Hfound : Context.get_people store_friends ∅ !! "Alice" = Some 1%positive)
    by (vm_compute; reflexivity).
  split; [exact Hfound|]. split; [vm_compute; reflexivity|].
  exact (proj1 (proj2 (proj2 (proj2 (proj2
           (update_person_fields store_friends "Alice" 1%positive None (Some "short")
              None None (Some "hi") Hfound)))))).
Defined.

(** X8.  On an entry that exists, [update_person] answers no_change
    exactly when there is no quote, no description, no role, no
    speaker_id, and the name is absent or is the name the instance
    already has; then the store is untouched.  Every other call on an
    entry that exists answers success. *)
Theorem update_person_no_change_iff context K person name description role
    speaker_id quote :
  Context.get_people context ∅ !! K = Some person →
  let result := update_person K name description role speaker_id quote context in
  (status_of result.1 = Some (JStr "no_change")
   ↔ (name = None ∨ name = Some (Person.name (Context.deref context person)))
     ∧ description = None ∧ role = None ∧ speaker_id = None ∧ quote = None)
  ∧ (status_of result.1 = Some (JStr "no_change") → result.2 = context)
  ∧ (status_of result.1 ≠ Some (JStr "no_change") →
     status_of result.1 = Some (JStr "success")).
Proof.
  intros Hfound result. subst result.
  update_person_cases name description role speaker_id quote.
  all: try match goal with
           | H : ¬ _ ≠ _ |- _ => apply dec_stable in H
           end.
  all: split_and!; try done; try naive_solver.
Qed.

Lemma update_person_no_change_iff_witness :
  Context.get_people store_speakers ∅ !! "S2" = Some 2%positive
  ∧ (status_of (update_person "S2" (Some "Robert Chen") None None None None
                              store_speakers).1 = Some (JStr "no_change")
     ↔ (Some "Robert Chen" = None
        ∨ Some "Robert Chen"
          = Some (Person.name (Context.deref store_speakers 2%positive)))
       ∧ @None string = None ∧ @None string = None ∧ @None string = None
       ∧ @None string = None)
  ∧ status_of (update_person "S2" (Some "Robert Chen") None None None None
                             store_speakers).1 = Some (JStr "no_change").
Proof.
  assert (Hfound : Context.get_people store_speakers ∅ !! "S2" = Some 2%positive)
    by (vm_compute; reflexivity).
  split; [exact Hfound|]. split; [|vm_compute; reflexivity].
  exact (proj1 (update_person_no_change_iff store_speakers "S2" 2%positive
                  (Some "Robert Chen") None None None None Hfound)).
Defined.

Lemma merge_persons_result context people source_name target_name source target :
  Context.people context = Some people →
  people !! source_name = Some source →
  people !! target_name = Some target →
  source_name ≠ target_name →
  let result := merge_persons source_name target_name context in
  let people' := Context.get_people result.2 ∅ in
  status_of result.1 = Some (JStr "success")
  ∧ people' = delete source_name people
  ∧ people' !! source_name = None
  ∧ people' !! target_name = Some target
  ∧ Context.deref result.2 target
    = Person.merge (Context.deref context target) (Context.deref context source)
  ∧ (∀ r, r ≠ target → Context.deref result.2 r = Context.deref context r)
  ∧ S (size people') = size people.
Proof.
  intros Hpeople Hsource Htarget Hne result people'. subst result people'.
  unfold merge_persons. rewrite (get_people_Some _ _ _ Hpeople), Hsource, Htarget.
  rewrite bool_decide_false by done.
  cbn -[Context.deref Context.mutate Context.set_people Context.update].
  autorewrite with store.
  split_and!; try done.
  - apply lookup_delete_eq.
  - by rewrite lookup_delete_ne.
  - intros r Hr. by rewrite deref_update, deref_set_people, deref_mutate_ne.
  - rewrite map_size_delete_Some by done.
    assert (size people ≠ 0) by (by apply map_size_ne_0_lookup_2 with source_name).
    lia.
Qed.

(** X9.  With source and target both present and different,
    [merge_persons] answers success, removes the source key and nothing
    else from the dictionary (one entry less), leaves the target key on
    the same instance, makes that instance the merge of its old state
    with the source, and changes no other instance. *)
Theorem merge_persons_merges context people source_name target_name source target :
  Context.people context = Some people →
  people !! source_name = Some source →
  people !! target_name = Some target →
  source_name ≠ target_name →
  let result := merge_persons source_name target_name context in
  let people' := Context.get_people result.2 ∅ in
  status_of result.1 = Some (JStr "success")
  ∧ people' = delete source_name people
  ∧ people' !! source_name = None
  ∧ people' !! target_name = Some target
  ∧ Context.deref result.2 target
    = Person.merge (Context.deref context target) (Context.deref context source)
  ∧ (∀ r, r ≠ target → Context.deref result.2 r = Context.deref context r)
  ∧ S (size people') = size people.
Proof.
  intros Hpeople Hsource Htarget Hne result people'. subst result people'.
  unfold merge_persons. rewrite (get_people_Some _ _ _ Hpeople), Hsource, Htarget.
  rewrite bool_decide_false by done.
  cbn -[Context.deref Context.mutate Context.set_people Context.update].
  autorewrite with store.
  split_and!; try done.
  - apply lookup_delete_eq.
  - by rewrite lookup_delete_ne.
  - intros r Hr. by rewrite deref_update, deref_set_people, deref_mutate_ne.
  - rewrite map_size_delete_Some by done.
    assert (size people ≠ 0) by (by apply map_size_ne_0_lookup_2 with source_name).
    lia.
Qed.

Lemma merge_persons_merges_witness :
  Context.get_people (merge_persons "Alice" "Bob" store_friends).2 ∅ !! "Alice" = None
  ∧ Context.get_people (merge_persons "Alice" "Bob" store_friends).2 ∅ !! "Bob"
    = Some 2%positive
  ∧ Context.deref (merge_persons "Alice" "Bob" store_friends).2 2%positive
    = Person.mk "Bob" "tall" "manager" EmptyString ["hi"].
Proof.
  assert (Hpeople : Context.people store_friends
                    = Some (Context.get_people store_friends ∅))
    by (vm_compute; reflexivity).
  assert (Hsource : Context.get_people store_friends ∅ !! "Alice" = Some 1%positive)
    by (vm_compute; reflexivity).
  assert (Htarget : Context.get_people store_friends ∅ !! "Bob" = Some 2%positive)
    by (vm_compute; reflexivity).
  assert (Hne : "Alice" ≠ "Bob") by (intros [=]).
  destruct (merge_persons_merges store_friends _ "Alice" "Bob" 1%positive 2%positive
              Hpeople Hsource Htarget Hne) as (_ & _ & Hgone & Hkept & _).
  split; [exact Hgone|]. split; [exact Hkept|]. vm_compute; reflexivity.
Defined.

(** *** [lookup_person] *)

Lemma map_to_list_filter_length {A} (P : string * A → Prop) `{!∀ x, Decision (P x)}
    (m : gmap string A) :
  length (filter P (map_to_list m)) = size (filter P m).
Proof.
  rewrite <-length_map_to_list. apply Permutation_length, NoDup_Permutation.
  - apply NoDup_filter, NoDup_map_to_list.
  - apply NoDup_map_to_list.
  - intros [k v]. rewrite list_elem_of_filter, !elem_of_map_to_list.
    rewrite map_lookup_filter_Some. naive_solver.
Qed.

Lemma lookup_person_results `{!PyRuntime} keyword context (entries : list (string * ref)) :
  let results :=
    flat_map (λ '(name, person),
                let person := Context.deref context person in
                if str_contains (str_lower keyword) (str_lower name)
                   || str_contains (str_lower keyword) (str_lower (Person.description person))
                   || str_contains (str_lower keyword) (str_lower (Person.role person))
                then [JObj [ ("name", JStr (Person.name person));
                             ("role", JStr (Person.role person));
                             ("description", JStr (Person.description person)) ]]
                else [])
             entries in
  results = (λ entry, person_summary (Context.deref context entry.2))
              <$> filter (λ entry, keyword_hit keyword context entry = true) entries.
Proof.
  induction entries as [|[name person] entries IH]; [done|].
  cbn [flat_map]. cbv zeta in IH. rewrite IH, filter_cons.
  destruct (decide _) as [Hhit|Hnot%not_true_is_false];
    unfold keyword_hit in Hhit || unfold keyword_hit in Hnot;
    cbn [fst snd] in *; cbv zeta in *.
  - by rewrite Hhit.
  - by rewrite Hnot.
Qed.

Lemma lookup_person_result `{!PyRuntime} keyword context :
  let result := lookup_person keyword context in
  let people := Context.get_people context ∅ in
  ∃ results,
    (∀ entry, entry ∈ results
              ↔ ∃ key person, people !! key = Some person
                              ∧ keyword_hit keyword context (key, person) = true
                              ∧ entry = person_summary (Context.deref context person))
    ∧ length results
      = size (filter (λ entry, keyword_hit keyword context entry = true) people)
    ∧ result.1
      = match results with
        | [] => JObj [ ("status", JStr "no_matches");
                       ("message", JStr ("No people found matching '" +:+ keyword +:+ "'")) ]
        | _ :: _ => JObj [ ("status", JStr "success");
                           ("results", JArr results);
                           ("count", JInt (Z.of_nat (length results))) ]
        end
    ∧ Context.objs result.2 = Context.objs context
    ∧ Context.people result.2 = Context.people context
    ∧ Context.get result.2 "search_keyword" Context.VNone = VStr keyword
    ∧ Context.get result.2 "last_operation" Context.VNone = VStr "lookup_person".
Proof.
  intros result people. subst result. unfold lookup_person.
  fold people. rewrite (lookup_person_results keyword context (map_to_list people)).
  set (results := _ <$> filter _ _).
  exists results. split_and!.
  - intros entry. subst results. rewrite list_elem_of_fmap. split.
    + intros ([key person] & -> & [Hhit Hin%elem_of_map_to_list]%list_elem_of_filter).
      eauto.
    + intros (key & person & Hin & Hhit & ->). exists (key, person). split; [done|].
      apply list_elem_of_filter. by rewrite elem_of_map_to_list.
  - subst results. by rewrite length_fmap, map_to_list_filter_length.
  - clearbody results. destruct results; reflexivity.
  - clearbody results. destruct results; reflexivity.
  - clearbody results. destruct results; reflexivity.
  - clearbody results. destruct results; by apply get_update_here.
  - clearbody results. destruct results; by apply get_update_here.
Qed.

(** X12.  [lookup_person] reports exactly the entries of the people
    dictionary whose key, description or role contains the keyword (all
    lowered), one summary per such entry; the answer is no_matches when
    there is none and success with the list and its length as count
    otherwise.  It changes no instance and no entry, and records the
    keyword and the operation even when nothing matched. *)
Theorem lookup_person_reports `{!PyRuntime} keyword context :
  let result := lookup_person keyword context in
  let people := Context.get_people context ∅ in
  ∃ results,
    (∀ entry, entry ∈ results
              ↔ ∃ key person, people !! key = Some person
                              ∧ keyword_hit keyword context (key, person) = true
                              ∧ entry = person_summary (Context.deref context person))
    ∧ length results
      = size (filter (λ entry, keyword_hit keyword context entry = true) people)
    ∧ result.1
      = match results with
        | [] => JObj [ ("status", JStr "no_matches");
                       ("message", JStr ("No people found matching '" +:+ keyword +:+ "'")) ]
        | _ :: _ => JObj [ ("status", JStr "success");
                           ("results", JArr results);
                           ("count", JInt (Z.of_nat (length results))) ]
        end
    ∧ Context.objs result.2 = Context.objs context
    ∧ Context.people result.2 = Context.people context
    ∧ Context.get result.2 "search_keyword" Context.VNone = VStr keyword
    ∧ Context.get result.2 "last_operation" Context.VNone = VStr "lookup_person".
Proof.
  intros result people. subst result. unfold lookup_person.
  fold people. rewrite (lookup_person_results keyword context (map_to_list people)).
  set (results := _ <$> filter _ _).
  exists results. split_and!.
  - intros entry. subst results. rewrite list_elem_of_fmap. split.
    + intros ([key person] & -> & [Hhit Hin%elem_of_map_to_list]%list_elem_of_filter).
      eauto.
    + intros (key & person & Hin & Hhit & ->). exists (key, person). split; [done|].
      apply list_elem_of_filter. by rewrite elem_of_map_to_list.
  - subst results. by rewrite length_fmap, map_to_list_filter_length.
  - clearbody results. destruct results; reflexivity.
  - clearbody results. destruct results; reflexivity.
  - clearbody results. destruct results; reflexivity.
  - clearbody results. destruct results; by apply get_update_here.
  - clearbody results. destruct results; by apply get_update_here.
Qed.

(** *** The shape of the store *)

(** The two shapes of the store after [update_person] on an entry that
    exists: the dictionary as it was, or re-keyed. *)
Lemma update_person_store context K person name description role speaker_id quote :
  Context.get_people context ∅ !! K = Some person →
  let result := update_person K name description role speaker_id quote context in
  dom (Context.objs context) ⊆ dom (Context.objs result.2)
  ∧ (Context.get_people result.2 ∅ = Context.get_people context ∅
     ∨ ∃ N, Context.get_people result.2 ∅
            = <[N := person]> (delete K (Context.get_people context ∅))).
Proof.
  intros Hfound result. subst result.
  update_person_cases name description role speaker_id quote.
  all: autorewrite with store.
  all: split; [set_solver|eauto].
Qed.

Lemma rekey_ok people K N person (objs : gset ref) :
  people !! K = Some person →
  (∀ key r, people !! key = Some r → r ∈ objs) →
  (∀ key1 key2 r, people !! key1 = Some r → people !! key2 = Some r → key1 = key2) →
  let people' := <[N := person]> (delete K people) in
  (∀ key r, people' !! key = Some r → r ∈ objs)
  ∧ (∀ key1 key2 r, people' !! key1 = Some r → people' !! key2 = Some r → key1 = key2).
Proof.
  intros HK Hdom Hinj people'. subst people'.
  assert (Hlookup : ∀ key r,
            <[N := person]> (delete K people) !! key = Some r →
            (key = N ∧ r = person) ∨ (key ≠ N ∧ key ≠ K ∧ people !! key = Some r)).
  { intros key r. destruct (decide (key = N)) as [->|HN].
    - rewrite lookup_insert_eq. naive_solver.
    - rewrite lookup_insert_ne by done. destruct (decide (key = K)) as [->|].
      + by rewrite lookup_delete_eq.
      + rewrite lookup_delete_ne by done. naive_solver. }
  split.
  - intros key r [[-> ->]|(_ & _ & Hr)]%Hlookup; eauto.
  - intros key1 key2 r H1 H2. apply Hlookup in H1, H2.
    destruct H1 as [[-> ->]|(? & HK1 & H1)], H2 as [[-> ?]|(? & HK2 & H2)];
      subst; try done.
    + by destruct HK2, (Hinj _ _ _ HK H2).
    + by destruct HK1, (Hinj _ _ _ HK H1).
    + eauto.
Qed.

Lemma create_person_store_ok name description role speaker_id context :
  store_ok context → store_ok (create_person name description role speaker_id context).2.
Proof.
  intros [Hdom Hinj]. unfold create_person, store_ok. cbn -[fresh].
  set (person := fresh (dom (Context.objs context))).
  assert (Hfresh : person ∉ dom (Context.objs context)) by apply is_fresh.
  change (Context.get_people _ ∅)
    with (<[name := person]> (Context.get_people context ∅)).
  assert (Hlookup : ∀ key r,
            <[name := person]> (Context.get_people context ∅) !! key = Some r →
            (key = name ∧ r = person)
            ∨ (key ≠ name ∧ Context.get_people context ∅ !! key = Some r)).
  { intros key r. destruct (decide (key = name)) as [->|].
    - rewrite lookup_insert_eq. naive_solver.
    - rewrite lookup_insert_ne by done. naive_solver. }
  split.
  - intros key r [[-> ->]|[_ Hr]]%Hlookup; rewrite dom_insert_L; [set_solver|].
    apply Hdom in Hr. set_solver.
  - intros key1 key2 r H1 H2. apply Hlookup in H1, H2.
    destruct H1 as [[-> ->]|[? H1]], H2 as [[-> ?]|[? H2]]; subst; try done.
    + by apply Hdom in H2.
    + by apply Hdom in H1.
    + eauto.
Qed.

Lemma update_person_store_ok K name description role speaker_id quote context :
  store_ok context →
  store_ok (update_person K name description role speaker_id quote context).2.
Proof.
  intros [Hdom Hinj].
  destruct (Context.get_people context ∅ !! K) as [person|] eqn:Hfound.
  - destruct (update_person_store context K person name description role speaker_id
                quote Hfound) as [Hobjs Hpeople].
    cbv zeta in *. unfold store_ok.
    destruct Hpeople as [->|[N ->]].
    + split; [|done]. intros key r Hr. apply Hobjs. eauto.
    + destruct (rekey_ok _ K N person (dom (Context.objs context)) Hfound Hdom Hinj)
        as [Hdom' Hinj'].
      split; [|done]. intros key r Hr. apply Hobjs. eauto.
  - unfold update_person. by rewrite Hfound.
Qed.

Lemma merge_persons_store_ok source_name target_name context :
  store_ok context → store_ok (merge_persons source_name target_name context).2.
Proof.
  intros [Hdom Hinj]. unfold merge_persons.
  destruct (Context.get_people context ∅ !! source_name) as [source|] eqn:Hs; [|done].
  destruct (Context.get_people context ∅ !! target_name) as [target|] eqn:Ht; [|done].
  case_bool_decide; [done|].
  unfold store_ok.
  cbn -[Context.mutate Context.set_people Context.update Person.merge].
  autorewrite with store.
  assert (Hlookup : ∀ key r,
            delete source_name (Context.get_people context ∅) !! key = Some r →
            Context.get_people context ∅ !! key = Some r).
  { intros key r. destruct (decide (key = source_name)) as [->|].
    - by rewrite lookup_delete_eq.
    - by rewrite lookup_delete_ne. }
  split.
  - intros key r Hr%Hlookup. apply Hdom in Hr. set_solver.
  - intros key1 key2 r H1%Hlookup H2%Hlookup. eauto.
Qed.

Lemma lookup_person_store_ok `{!PyRuntime} keyword context :
  store_ok context → store_ok (lookup_person keyword context).2.
Proof.
  intros Hok. unfold lookup_person.
  match goal with |- context [flat_map ?f ?l] => destruct (flat_map f l) end; exact Hok.
Qed.

(** X13.  Each of the four handlers keeps the shape of the store: after
    it, every entry of the people dictionary still refers to an instance
    that exists, and no instance is under two keys.  So no call sequence
    makes two names share one [Person]. *)
Theorem handlers_keep_store_ok `{!PyRuntime} context :
  store_ok context →
  (∀ name description role speaker_id,
     store_ok (create_person name description role speaker_id context).2)
  ∧ (∀ person_name name description role speaker_id quote,
       store_ok (update_person person_name name description role speaker_id quote
                               context).2)
  ∧ (∀ keyword, store_ok (lookup_person keyword context).2)
  ∧ (∀ source_name target_name,
       store_ok (merge_persons source_name target_name context).2).
Proof.
  intros Hok. split_and!; intros *.
  - by apply create_person_store_ok.
  - by apply update_person_store_ok.
  - by apply lookup_person_store_ok.
  - by apply merge_persons_store_ok.
Qed.

Lemma store_ok_init : store_ok Context.init.
Proof. split; intros *; unfold Context.get_people; cbn; by rewrite lookup_empty. Defined.

Lemma handlers_keep_store_ok_witness :
  store_ok Context.init
  ∧ store_ok (create_person "Ann" EmptyString "witness" EmptyString Context.init).2
  ∧ store_ok (merge_persons "Ann" "Bob" Context.init).2.
Proof.
  pose proof (@handlers_keep_store_ok py_runtime Context.init store_ok_init)
    as (Hcreate & _ & _ & Hmerge).
  split; [exact store_ok_init|]. split; [apply Hcreate|apply Hmerge].
Defined.

(** *** Bookkeeping *)

(** X14.  What the handlers leave under the bookkeeping keys:
    [create_person] always records its name and a summary with the
    person's name; [update_person] on success records its name and a
    summary with the instance's name after the update, which is also the
    person_name of its result; [merge_persons] on success records its
    name and the two names it was called with. *)
Theorem handlers_record_last_operation context :
  (∀ name description role speaker_id,
     let result := create_person name description role speaker_id context in
     Context.get result.2 "last_operation" Context.VNone = VStr "create_person"
     ∧ Context.get result.2 "last_result_summary" Context.VNone
       = VStr ("Created person: " +:+ name))
  ∧ (∀ person_name name description role speaker_id quote person,
       let result :=
         update_person person_name name description role speaker_id quote context in
       Context.get_people context ∅ !! person_name = Some person →
       status_of result.1 = Some (JStr "success") →
       Context.get result.2 "last_operation" Context.VNone = VStr "update_person"
       ∧ Context.get result.2 "last_result_summary" Context.VNone
         = VStr ("Updated person: " +:+ Person.name (Context.deref result.2 person))
       ∧ result.1
         = JObj [ ("status", JStr "success");
                  ("person_name", JStr (Person.name (Context.deref result.2 person)));
                  ("details", JStr (Person.str (Context.deref result.2 person))) ])
  ∧ (∀ source_name target_name,
       let result := merge_persons source_name target_name context in
       status_of result.1 = Some (JStr "success") →
       Context.get result.2 "last_operation" Context.VNone = VStr "merge_persons"
       ∧ Context.get result.2 "merged_from" Context.VNone = VStr source_name
       ∧ Context.get result.2 "merged_to" Context.VNone = VStr target_name).
Proof.
  split_and!.
  - intros *. split; by apply get_update_here.
  - intros person_name name description role speaker_id quote person result Hfound.
    subst result.
    update_person_cases name description role speaker_id quote.
    all: intros Hstatus; try done.
    all: split_and!; [by apply get_update_here..|done].
  - intros source_name target_name result. subst result. unfold merge_persons.
    destruct (_ !! source_name); [|done]. destruct (_ !! target_name); [|done].
    case_bool_decide; [done|]. intros _.
    split_and!; by apply get_update_here.
Qed.

Lemma handlers_record_last_operation_witness :
  Context.get (update_person "Alice" (Some "Alicia") None None None None store_friends).2
              "last_result_summary" Context.VNone
  = VStr "Updated person: Alicia"
  ∧ Context.get (merge_persons "Alice" "Bob" store_friends).2 "merged_to" Context.VNone
    = VStr "Bob".
Proof.
  pose proof (handlers_record_last_operation store_friends) as (_ & Hupdate & Hmerge).
  split.
  - assert (Hfound : Context.get_people store_friends ∅ !! "Alice" = Some 1%positive)
      by (vm_compute; reflexivity).
    assert (Hstatus : status_of (update_person "Alice" (Some "Alicia") None None None None
                                               store_friends).1
                      = Some (JStr "success")) by (vm_compute; reflexivity).
    destruct (Hupdate "Alice" (Some "Alicia") None None None None 1%positive
                Hfound Hstatus) as (_ & Hsummary & _).
    etransitivity; [exact Hsummary|]. vm_compute; reflexivity.
  - assert (Hstatus : status_of (merge_persons "Alice" "Bob" store_friends).1
                      = Some (JStr "success")) by (vm_compute; reflexivity).
    exact (proj2 (proj2 (Hmerge "Alice" "Bob" Hstatus))).
Defined.

(** ** The dispatcher *)

Section dispatcher.

Context `{!PyRuntime}.

(** A call of a handler of the table that returns is a call of one of
    the four functions with some arguments. *)
Lemma handler_call_registered name h kwargs context result context' :
  tool_handlers !! name = Some h →
  handler_call h kwargs context = Some (result, context') →
  (∃ n d r s, (result, context') = create_person n d r s context)
  ∨ (∃ pn n d r s q, (result, context') = update_person pn n d r s q context)
  ∨ (∃ k, (result, context') = lookup_person k context)
  ∨ (∃ s t, (result, context') = merge_persons s t context).
Proof.
  rewrite tool_handlers_lookup.
  repeat case_bool_decide; intros [= <-]; cbn [handler_call create_person_handler
    update_person_handler lookup_person_handler merge_persons_handler];
    intros Hcall;
    repeat match type of Hcall with
           | (?o ≫= _) = Some _ =>
               let x := fresh "x" in
               destruct o as [x|]; [cbn [mbind option_bind] in Hcall|done]
           end;
    apply (inj Some) in Hcall; rewrite <-Hcall.
  - left. by repeat eexists.
  - right; left. by repeat eexists.
  - right; right; left. by repeat eexists.
  - right; right; right. by repeat eexists.
Qed.

Lemma filter_nil_iff {A} (P : A → Prop) `{!∀ x, Decision (P x)} (l : list A) :
  filter P l = [] ↔ ∀ x, x ∈ l → ¬ P x.
Proof.
  split.
  - intros Hnil x Hx HP. by apply (filter_nil_not_elem_of P l x).
  - intros Hall. induction l as [|a l IH]; [done|].
    rewrite filter_cons. destruct (decide (P a)) as [HP|_].
    + destruct (Hall a); [left|done].
    + apply IH. intros x Hx. apply Hall. by right.
Qed.

Lemma bind_kwargs_inr_iff (h : handler) (args_dict : json)
    (kwargs : list (string * json)) :
  bind_kwargs h args_dict = inr kwargs
  ↔ args_dict = JObj kwargs
    ∧ ("context" ∉ kwargs.*1)
    ∧ (∀ k, k ∈ kwargs.*1 → k ∈ (handler_params h).*1)
    ∧ (∀ p, (p, true) ∈ handler_params h → p ∈ kwargs.*1).
Proof.
  unfold bind_kwargs. split.
  - destruct args_dict as [| | | | | |kw]; try done.
    case_bool_decide as Hctx; [done|].
    destruct (filter _ kw.*1) eqn:Hunknown; [|done].
    destruct (filter _ (handler_params h)) as [|m ms] eqn:Hmissing; [|done].
    intros [= <-]. split_and!; [done|done| |].
    + intros k Hk. rewrite filter_nil_iff in Hunknown.
      destruct (decide (k ∈ (handler_params h).*1)); [done|]. by destruct (Hunknown k Hk).
    + intros p Hp. rewrite filter_nil_iff in Hmissing.
      destruct (decide (p ∈ kw.*1)); [done|]. by destruct (Hmissing _ Hp).
  - intros (-> & Hctx & Hknown & Hreq).
    rewrite bool_decide_false by done.
    replace (filter _ kwargs.*1) with (@nil string).
    2:{ symmetry. apply filter_nil_iff. intros k Hk Hnot. apply Hnot, Hknown, Hk. }
    replace (filter _ (handler_params h)) with (@nil (string * bool)); [done|].
    symmetry. apply filter_nil_iff. intros [p b] Hp [Hb Hnot]. cbn in *. subst.
    apply Hnot, Hreq, Hp.
Qed.

(** X15.  The call of a handler with the unpacked payload goes through
    to the body exactly when the payload is an object, has no key
    context, has only keys that are parameters of the handler, and has
    every parameter without a default; in every other case it is a
    [TypeError]. *)
Theorem bind_kwargs_accepts (h : handler) (args_dict : json)
    (kwargs : list (string * json)) :
  bind_kwargs h args_dict = inr kwargs
  ↔ args_dict = JObj kwargs
    ∧ ("context" ∉ kwargs.*1)
    ∧ (∀ k, k ∈ kwargs.*1 → k ∈ (handler_params h).*1)
    ∧ (∀ p, (p, true) ∈ handler_params h → p ∈ kwargs.*1).
Proof.
  unfold bind_kwargs. split.
  - destruct args_dict as [| | | | | |kw]; try done.
    case_bool_decide as Hctx; [done|].
    destruct (filter _ kw.*1) eqn:Hunknown; [|done].
    destruct (filter _ (handler_params h)) as [|m ms] eqn:Hmissing; [|done].
    intros [= <-]. split_and!; [done|done| |].
    + intros k Hk. rewrite filter_nil_iff in Hunknown.
      destruct (decide (k ∈ (handler_params h).*1)); [done|]. by destruct (Hunknown k Hk).
    + intros p Hp. rewrite filter_nil_iff in Hmissing.
      destruct (decide (p ∈ kw.*1)); [done|]. by destruct (Hmissing _ Hp).
  - intros (-> & Hctx & Hknown & Hreq).
    rewrite bool_decide_false by done.
    replace (filter _ kwargs.*1) with (@nil string).
    2:{ symmetry. apply filter_nil_iff. intros k Hk Hnot. apply Hnot, Hknown, Hk. }
    replace (filter _ (handler_params h)) with (@nil (string * bool)); [done|].
    symmetry. apply filter_nil_iff. intros [p b] Hp [Hb Hnot]. cbn in *. subst.
    apply Hnot, Hreq, Hp.
Qed.

Lemma handle_tool_call_shape (tc : tool_call) context msg result context' :
  handle_tool_call tc context = Some (msg, result, context') →
  (∃ content, msg = ToolMessage (tool_call_id tc) content)
  ∧ (result = None → context' = context)
  ∧ (∀ r, result = Some r →
          msg = ToolMessage (tool_call_id tc) (json_dumps (JObj [("result", r)]))).
Proof.
  unfold handle_tool_call.
  destruct (json_loads _) as [args_dict|];
    [|by intros [= <- <- <-]; split_and!; eauto].
  destruct (tool_handlers !! _) as [h|];
    [|by intros [= <- <- <-]; split_and!; eauto].
  destruct (bind_kwargs h args_dict) as [e|kwargs];
    [by intros [= <- <- <-]; split_and!; eauto|].
  destruct (handler_call h kwargs context) as [[r c]|]; [|done].
  cbn. intros [= <- <- <-]. split_and!; [eauto|done|]. by intros ? [= <-].
Qed.


(** X17.  A payload that parses to something else than an object, or to
    an object with the key context, never reaches a handler, whatever
    the tool name: the answer is an error message for the call's id, and
    the store is unchanged.  In particular the model cannot pass its own
    [context]. *)
Theorem handle_tool_call_rejects (tc : tool_call) context (args_dict : json) :
  json_loads (function_arguments (tool_call_function tc)) = Some args_dict →
  (∀ kwargs, args_dict = JObj kwargs → "context" ∈ kwargs.*1) →
  ∃ content,
    handle_tool_call tc context = Some (ToolMessage (tool_call_id tc) content, None, context).
Proof.
  intros Hloads Hbad. unfold handle_tool_call. rewrite Hloads.
  destruct (tool_handlers !! _) as [h|]; [|eauto].
  destruct (bind_kwargs h args_dict) as [e|kwargs] eqn:Hbind; [eauto|].
  apply bind_kwargs_inr_iff in Hbind as (-> & Hctx & _). destruct Hctx. by apply Hbad.
Qed.

Lemma handle_tool_call_store_ok (tc : tool_call) context msg result context' :
  handle_tool_call tc context = Some (msg, result, context') →
  store_ok context → store_ok context'.
Proof.
  intros Hcall Hok.
  destruct result as [r|];
    [|by rewrite (proj1 (proj2 (handle_tool_call_shape _ _ _ _ _ Hcall)) eq_refl)].
  revert Hcall. unfold handle_tool_call.
  destruct (json_loads _) as [args_dict|]; [|done].
  destruct (tool_handlers !! _) as [h|] eqn:Hh; [|done].
  destruct (bind_kwargs h args_dict) as [e|kwargs]; [done|].
  destruct (handler_call h kwargs context) as [[r' c]|] eqn:Hhc; [|done].
  cbn. intros [= _ _ <-].
  destruct (handler_call_registered _ _ _ _ _ _ Hh Hhc)
    as [(n & d & ro & s & Heq)|[(pn & n & d & ro & s & q & Heq)|[(k & Heq)|(s & t & Heq)]]];
    apply (f_equal snd) in Heq; cbn in Heq; subst c.
  - by apply create_person_store_ok.
  - by apply update_person_store_ok.
  - by apply lookup_person_store_ok.
  - by apply merge_persons_store_ok.
Qed.

(** X18.  The schemas of [tool_definitions] fit the handlers: a call
    whose tool name is the name of a schema and whose payload is an
    object with keys among the schema's properties, with all its required
    properties, and with string values, always reaches the handler and
    comes back with the handler's result, never with a [TypeError]. *)
Theorem schema_call_reaches_handler (tc : tool_call) context (t : ToolName)
    (schema : tool_schema) (kwargs : list (string * json)) :
  (t, schema) ∈ tool_definitions →
  function_name (tool_call_function tc) = schema_name schema →
  json_loads (function_arguments (tool_call_function tc)) = Some (JObj kwargs) →
  conforms_to_schema schema kwargs →
  ∃ result context',
    handle_tool_call tc context
    = Some (ToolMessage (tool_call_id tc) (json_dumps (JObj [("result", result)])),
            Some result, context').
Proof.
  intros Hschema Hname Hloads (Hknown & Hrequired & Hvalues).
  destruct (handle_tool_call_string_valued tc context) as [[[msg result] context'] Hcall].
  { intros kwargs' Hloads'. rewrite Hloads in Hloads'. by injection Hloads' as <-. }
  assert (∃ h, tool_handlers !! function_name (tool_call_function tc) = Some h
               ∧ bind_kwargs h (JObj kwargs) = inr kwargs) as (h & Hh & Hbind).
  { rewrite Hname, tool_handlers_lookup. unfold tool_definitions in Hschema.
    repeat (apply elem_of_cons in Hschema as [[= -> ->]|Hschema]);
      [| | | |by apply elem_of_nil in Hschema];
      cbn [schema_name ToolName_value];
      (eexists; split; [reflexivity|]);
      apply bind_kwargs_inr_iff; cbn in *; split_and!; try done.
    all: try (intros Hc%Hknown; set_solver).
    all: intros p Hp; apply Hrequired; set_solver. }
  revert Hcall. unfold handle_tool_call. rewrite Hloads, Hh, Hbind.
  destruct (handler_call h kwargs context) as [[r c]|]; [|done].
  cbn. intros _. eauto.
Qed.

End dispatcher.


Lemma handle_tool_call_rejects_witness :
  (∃ content,
     @handle_tool_call py_runtime context_call store_A
     = Some (ToolMessage "call_3" content, None, store_A))
  ∧ (∃ content,
       @handle_tool_call py_runtime array_call store_A
       = Some (ToolMessage "call_4" content, None, store_A)).
Proof.
  split.
  - apply (@handle_tool_call_rejects py_runtime context_call store_A
             (JObj [("name", JStr "Eve"); ("context", JStr "mine")]));
      [vm_compute; reflexivity|].
    intros kwargs [= <-]. cbn. set_solver.
  - apply (@handle_tool_call_rejects py_runtime array_call store_A
             (JArr [JInt 1; JInt 2])); [vm_compute; reflexivity|].
    intros kwargs [=].
Defined.

Lemma schema_call_reaches_handler_witness :
  ∃ result context',
    @handle_tool_call py_runtime charlie_call store_A
    = Some (ToolMessage "call_1" (@json_dumps py_runtime (JObj [("result", result)])),
            Some result, context').
Proof.
  eapply (@schema_call_reaches_handler py_runtime charlie_call store_A CREATE_PERSON _
            [("name", JStr "Charlie"); ("role", JStr "project manager")]).
  - unfold tool_definitions. apply list_elem_of_here.
  - reflexivity.
  - vm_compute; reflexivity.
  - split_and!.
    + intros k Hk. cbn in *. set_solver.
    + intros p Hp. cbn in *. set_solver.
    + repeat constructor; cbn; eauto.
Defined.

(** ** The loop *)

Section loop.

Context `{!PyRuntime, !ModelBoundary}.


Lemma task_loop_shape (messages : list message) (model : string) context
    history final_content context' :
  task_loop messages model context = Some (history, final_content, context') →
  let response :=
    get_completion messages model (Some (snd <$> tool_definitions)) (Some "auto") in
  (history = messages ++ [AssistantTurn (message_content response) None]
   ∧ final_content = message_content response
   ∧ context' = context)
  ∨ (∃ tc rest content,
       message_tool_calls response = Some (tc :: rest)
       ∧ history
         = messages
           ++ [ AssistantTurn (message_content response) (Some (tc :: rest));
                ToolMessage (tool_call_id tc) content;
                AssistantFinal final_content ]
       ∧ final_content
         = message_content
             (get_completion
                (messages
                 ++ [ AssistantTurn (message_content response) (Some (tc :: rest));
                      ToolMessage (tool_call_id tc) content ])
                model None None)
       ∧ ∃ result, handle_tool_call tc context
                   = Some (ToolMessage (tool_call_id tc) content, result, context')).
Proof.
  intros Hloop response. revert Hloop. unfold task_loop. fold response.
  destruct (message_tool_calls response) as [[|tc rest]|] eqn:Hcalls;
    [intros [= <- <- <-]; by left| |intros [= <- <- <-]; by left].
  destruct (handle_tool_call tc context) as [[[msg result] c]|] eqn:Hcall; [|done].
  destruct (handle_tool_call_shape _ _ _ _ _ Hcall) as [[content ->] _].
  cbn. intros [= <- <- <-]. right. exists tc, rest, content.
  rewrite <-!app_assoc. cbn. split_and!; eauto.
Qed.

(** X20.  A turn only ever appends to the message list, in one of two
    shapes: one assistant message (no tool was asked for), or the
    assistant's turn with its tool calls, the tool message that answers
    the first of them, and the final assistant message; the final
    content is then what the model said when asked again, without tools,
    with the tool message in front of it. *)
Theorem task_loop_history (messages : list message) (model : string) context
    history final_content context' :
  task_loop messages model context = Some (history, final_content, context') →
  let response :=
    get_completion messages model (Some (snd <$> tool_definitions)) (Some "auto") in
  (history = messages ++ [AssistantTurn (message_content response) None]
   ∧ final_content = message_content response
   ∧ context' = context)
  ∨ (∃ tc rest content,
       message_tool_calls response = Some (tc :: rest)
       ∧ history
         = messages
           ++ [ AssistantTurn (message_content response) (Some (tc :: rest));
                ToolMessage (tool_call_id tc) content;
                AssistantFinal final_content ]
       ∧ final_content
         = message_content
             (get_completion
                (messages
                 ++ [ AssistantTurn (message_content response) (Some (tc :: rest));
                      ToolMessage (tool_call_id tc) content ])
                model None None)
       ∧ ∃ result, handle_tool_call tc context
                   = Some (ToolMessage (tool_call_id tc) content, result, context')).
Proof.
  intros Hloop response. revert Hloop. unfold task_loop. fold response.
  destruct (message_tool_calls response) as [[|tc rest]|] eqn:Hcalls;
    [intros [= <- <- <-]; by left| |intros [= <- <- <-]; by left].
  destruct (handle_tool_call tc context) as [[[msg result] c]|] eqn:Hcall; [|done].
  destruct (handle_tool_call_shape _ _ _ _ _ Hcall) as [[content ->] _].
  cbn. intros [= <- <- <-]. right. exists tc, rest, content.
  rewrite <-!app_assoc. cbn. split_and!; eauto.
Qed.

(** X21.  The dispatcher and the loop keep the shape of the store: from
    a store where every entry refers to an instance and no instance is
    under two keys, any call and any turn lead to such a store again. *)
Theorem dispatch_keeps_store_ok context :
  store_ok context →
  (∀ tc msg result context',
     handle_tool_call tc context = Some (msg, result, context') → store_ok context')
  ∧ (∀ messages model history final_content context',
       task_loop messages model context = Some (history, final_content, context') →
       store_ok context').
Proof.
  intros Hok. split.
  - intros tc msg result context' Hcall. by eapply handle_tool_call_store_ok.
  - intros messages model history final_content context' Hloop.
    destruct (task_loop_shape _ _ _ _ _ _ Hloop)
      as [(_ & _ & ->)|(tc & rest & content & _ & _ & _ & result & Hcall)]; [done|].
    by eapply handle_tool_call_store_ok.
Qed.

(** X22.  [run_pipeline] starts from an empty store and the system and
    user messages, and answers with the content of the first response
    when that asks for no tool, and otherwise with what the model says
    when asked again with the tool message of the first call appended. *)
Theorem run_pipeline_answer (system_prompt input_data model : string)
    (final_content : option string) :
  run_pipeline system_prompt input_data model = Some final_content →
  let opening := [ChatMessage "system" system_prompt; ChatMessage "user" input_data] in
  let response :=
    get_completion opening model (Some (snd <$> tool_definitions)) (Some "auto") in
  ((message_tool_calls response = None ∨ message_tool_calls response = Some [])
   ∧ final_content = message_content response)
  ∨ (∃ tc rest content result context',
       message_tool_calls response = Some (tc :: rest)
       ∧ handle_tool_call tc Context.init
         = Some (ToolMessage (tool_call_id tc) content, result, context')
       ∧ final_content
         = message_content
             (get_completion
                (opening
                 ++ [ AssistantTurn (message_content response) (Some (tc :: rest));
                      ToolMessage (tool_call_id tc) content ])
                model None None)).
Proof.
  intros Hrun opening response. unfold run_pipeline in Hrun. fold opening in Hrun.
  destruct (task_loop opening model Context.init)
    as [[[history final] context']|] eqn:Hloop; [|done].
  cbn in Hrun. injection Hrun as ->.
  pose proof (task_loop_shape _ _ _ _ _ _ Hloop) as Hhistory.
  cbv zeta in Hhistory. fold opening in Hhistory. fold response in Hhistory.
  destruct Hhistory
    as [(Hh & -> & _)|(tc & rest & content & Hcalls & _ & -> & result & Hcall)].
  - left. split; [|done]. revert Hloop. unfold task_loop. fold opening. fold response.
    destruct (message_tool_calls response) as [[|tc rest]|]; [by right| |by left].
    destruct (handle_tool_call tc Context.init) as [[[msg r] c]|]; [|done].
    cbn. intros [= Hlen _ _]. rewrite Hh in Hlen.
    apply (f_equal length) in Hlen. rewrite !length_app in Hlen. cbn in Hlen. lia.
  - right. by exists tc, rest, content, result, context'.
Qed.

(** X23.  End to end: when the first response asks for [create_person]
    with a name and a role, the turn returns, its last message is the
    final answer, and the store it hands back has a new instance under
    that name, with that name and role, empty description and speaker id
    and no quotes, beside the entries it had. *)
Theorem task_loop_creates_person (messages : list message) (model : string) context
    (tc : tool_call) (rest : list tool_call) (name role : string) :
  message_tool_calls
    (get_completion messages model (Some (snd <$> tool_definitions)) (Some "auto"))
  = Some (tc :: rest) →
  function_name (tool_call_function tc) = "create_person" →
  json_loads (function_arguments (tool_call_function tc))
  = Some (JObj [("name", JStr name); ("role", JStr role)]) →
  ∃ history final_content context' person,
    task_loop messages model context = Some (history, final_content, context')
    ∧ last history = Some (AssistantFinal final_content)
    ∧ (person ∉ dom (Context.objs context))
    ∧ Context.get_people context' ∅
      = <[name := person]> (Context.get_people context ∅)
    ∧ Context.deref context' person = Person.init name EmptyString role EmptyString.
Proof.
  intros Hcalls Hname Hloads.
  destruct (create_person_result name EmptyString role EmptyString context)
    as (person & Hfresh & _ & _ & Hpeople & Hderef & _).
  cbv zeta in *.
  assert (Hcall : handle_tool_call tc context
            = Some (ToolMessage (tool_call_id tc)
                      (json_dumps
                         (JObj [("result",
                                 (create_person name EmptyString role EmptyString
                                                context).1)])),
                    Some (create_person name EmptyString role EmptyString context).1,
                    (create_person name EmptyString role EmptyString context).2)).
  { unfold handle_tool_call. rewrite Hloads, Hname.
    replace (tool_handlers !! "create_person") with (Some create_person_handler)
      by (by rewrite tool_handlers_lookup).
    change (bind_kwargs create_person_handler
              (JObj [("name", JStr name); ("role", JStr role)]))
      with (@inr TypeError _ [("name", JStr name); ("role", JStr role)]).
    cbv beta iota.
    change (handler_call create_person_handler
              [("name", JStr name); ("role", JStr role)] context)
      with (Some (create_person name EmptyString role EmptyString context)).
    by destruct (create_person _ _ _ _ _). }
  unfold task_loop. rewrite Hcalls, Hcall. cbn [mbind option_bind].
  eexists _, _, _, person. split; [reflexivity|].
  split_and!; [by rewrite last_snoc|done| |done].
  unfold Context.get_people. by rewrite Hpeople.
Qed.

End loop.


Lemma task_loop_history_witness :
  ∃ history final_content context',
    @task_loop py_runtime scripted_model charlie_messages "gpt-4o-mini" Context.init
    = Some (history, final_content, context')
    ∧ (length history = 3 ∨ length history = 5).
Proof.
  destruct (@task_loop py_runtime scripted_model charlie_messages "gpt-4o-mini"
              Context.init) as [[[history final_content] context']|] eqn:Hloop;
    [|by vm_compute in Hloop].
  exists history, final_content, context'. split; [reflexivity|].
  destruct (@task_loop_history py_runtime scripted_model charlie_messages "gpt-4o-mini"
              Context.init history final_content context' Hloop)
    as [(-> & _)|(tc & rest & content & _ & -> & _)].
  - left. reflexivity.
  - right. reflexivity.
Defined.

Lemma dispatch_keeps_store_ok_witness :
  ∃ history final_content context',
    @task_loop py_runtime scripted_model charlie_messages "gpt-4o-mini" Context.init
    = Some (history, final_content, context')
    ∧ store_ok context'.
Proof.
  destruct (@task_loop py_runtime scripted_model charlie_messages "gpt-4o-mini"
              Context.init) as [[[history final_content] context']|] eqn:Hloop;
    [|by vm_compute in Hloop].
  exists history, final_content, context'. split; [reflexivity|].
  exact (proj2 (@dispatch_keeps_store_ok py_runtime scripted_model Context.init
                  store_ok_init) _ _ _ _ _ Hloop).
Defined.

Lemma run_pipeline_answer_witness :
  @run_pipeline py_runtime scripted_model "You are a helpful assistant."
    "Create Charlie, a project manager" "gpt-4o-mini"
  = Some (Some "Created Charlie.")
  ∧ ∃ tc rest content result context',
      message_tool_calls two_calls = Some (tc :: rest)
      ∧ @handle_tool_call py_runtime tc Context.init
        = Some (ToolMessage (tool_call_id tc) content, result, context').
Proof.
  assert (Hrun : @run_pipeline py_runtime scripted_model "You are a helpful assistant."
                   "Create Charlie, a project manager" "gpt-4o-mini"
                 = Some (Some "Created Charlie.")) by (vm_compute; reflexivity).
  split; [exact Hrun|].
  destruct (@run_pipeline_answer py_runtime scripted_model _ _ _ _ Hrun)
    as [[[Hnone|Hempty] _]|(tc & rest & content & result & context' & Hcalls & Hcall & _)].
  - discriminate Hnone.
  - discriminate Hempty.
  - exists tc, rest, content, result, context'. split; [exact Hcalls|exact Hcall].
Defined.

Lemma task_loop_creates_person_witness :
  ∃ history final_content context' person,
    @task_loop py_runtime scripted_model charlie_messages "gpt-4o-mini" store_A
    = Some (history, final_content, context')
    ∧ last history = Some (AssistantFinal final_content)
    ∧ (person ∉ dom (Context.objs store_A))
    ∧ Context.get_people context' ∅
      = <["Charlie" := person]> (Context.get_people store_A ∅)
    ∧ Context.deref context' person
      = Person.init "Charlie" EmptyString "project manager" EmptyString.
Proof.
  apply (@task_loop_creates_person py_runtime scripted_model charlie_messages
           "gpt-4o-mini" store_A charlie_call
           [call "call_2" "create_person" (jobj [("name", jstr "Dana")])]
           "Charlie" "project manager").
  - reflexivity.
  - reflexivity.
  - vm_compute; reflexivity.
Defined.


(** ** How the handlers compose *)

(** X25.  Renaming back: when [N] is a free key that differs from the
    key [K] and from the instance's name, [update_person] from [K] to [N]
    followed by [update_person] from [N] to [K] succeeds twice and leaves
    the people dictionary as it was before the two calls, with the
    instance named [K]. *)
Theorem update_person_rename_back context people K N person :
  Context.people context = Some people →
  people !! K = Some person →
  people !! N = None →
  N ≠ Person.name (Context.deref context person) →
  let renamed := update_person K (Some N) None None None None context in
  let back := update_person N (Some K) None None None None renamed.2 in
  status_of renamed.1 = Some (JStr "success")
  ∧ status_of back.1 = Some (JStr "success")
  ∧ Context.people back.2 = Some people
  ∧ Person.name (Context.deref back.2 person) = K.
Proof.
  intros Hpeople HK HN Hname renamed back.
  assert (HNK : N ≠ K) by (intros ->; congruence).
  destruct (update_person_rename context people K N person None None None None
              Hpeople HK Hname HNK) as (Hstatus1 & _ & Hpeople1 & Hname1).
  fold renamed in Hstatus1, Hpeople1, Hname1.
  assert (Hfound1 : <[N := person]> (delete K people) !! N = Some person)
    by apply lookup_insert_eq.
  assert (Hname2 : K ≠ Person.name (Context.deref renamed.2 person))
    by (rewrite Hname1; congruence).
  destruct (update_person_rename renamed.2 _ N K person None None None None
              Hpeople1 Hfound1 Hname2 (not_eq_sym HNK))
    as (Hstatus2 & _ & Hpeople2 & Hname3).
  fold back in Hstatus2, Hpeople2, Hname3.
  split_and!; [done|done| |done].
  rewrite Hpeople2. f_equal.
  rewrite delete_insert_eq, (delete_id (delete K people) N)
    by (by rewrite lookup_delete_ne).
  rewrite insert_delete_eq. by apply insert_id.
Qed.

Lemma update_person_rename_back_witness :
  Context.people
    (update_person "Robert" (Some "Bob") None None None None
       (update_person "Bob" (Some "Robert") None None None None store_friends).2).2
  = Context.people store_friends.
Proof.
  assert (Hpeople : Context.people store_friends
                    = Some (Context.get_people store_friends ∅))
    by (vm_compute; reflexivity).
  assert (HK : Context.get_people store_friends ∅ !! "Bob" = Some 2%positive)
    by (vm_compute; reflexivity).
  assert (HN : Context.get_people store_friends ∅ !! "Robert" = None)
    by (vm_compute; reflexivity).
  assert (Hname : "Robert" ≠ Person.name (Context.deref store_friends 2%positive))
    by (vm_compute; intros [=]).
  destruct (update_person_rename_back store_friends _ "Bob" "Robert" 2%positive
              Hpeople HK HN Hname) as (_ & _ & Hback & _).
  etransitivity; [exact Hback|]. symmetry. exact Hpeople.
Defined.

Lemma str_contains_refl (s : string) : str_contains s s = true.
Proof.
  assert (Hprefix : ∀ t, String.prefix t t = true).
  { induction t as [|c t IH]; [done|]. cbn. by destruct (Ascii.ascii_dec c c). }
  destruct s as [|c s]; [done|].
  cbn [str_contains]. by rewrite Hprefix.
Qed.

(** X26.  A person that was just created is found by its own name:
    [lookup_person] with the name given to [create_person] as keyword
    answers success, and the summary of the new person is among the
    results. *)
Theorem lookup_person_finds_created `{!PyRuntime} name description role speaker_id
    context :
  let created := (create_person name description role speaker_id context).2 in
  ∃ results,
    (lookup_person name created).1
    = JObj [ ("status", JStr "success");
             ("results", JArr results);
             ("count", JInt (Z.of_nat (length results))) ]
    ∧ person_summary (Person.init name description role speaker_id) ∈ results.
Proof.
  intros created.
  destruct (create_person_result name description role speaker_id context)
    as (person & _ & _ & _ & Hpeople & Hderef & _).
  fold created in Hpeople, Hderef.
  destruct (lookup_person_result name created)
    as (results & Hresults & _ & Hanswer & _).
  assert (Hin : person_summary (Person.init name description role speaker_id) ∈ results).
  { apply Hresults. exists name, person. split_and!.
    - unfold Context.get_people. rewrite Hpeople. apply lookup_insert_eq.
    - unfold keyword_hit. cbn [fst]. by rewrite str_contains_refl.
    - by rewrite Hderef. }
  exists results. split; [|done].
  rewrite Hanswer. destruct results; [by apply elem_of_nil in Hin|done].
Qed.

(** X27.  A merge cannot be repeated: right after a successful
    [merge_persons] the same call answers that the source is not found,
    and changes nothing. *)
Theorem merge_persons_twice context people source_name target_name source target :
  Context.people context = Some people →
  people !! source_name = Some source →
  people !! target_name = Some target →
  source_name ≠ target_name →
  let merged := (merge_persons source_name target_name context).2 in
  merge_persons source_name target_name merged
  = (JObj [("error", JStr ("Source person '" +:+ source_name
                           +:+ "' not found. Cannot merge."))],
     merged).
Proof.
  intros Hpeople Hsource Htarget Hne merged.
  destruct (merge_persons_result context people source_name target_name source target
              Hpeople Hsource Htarget Hne) as (_ & _ & Hgone & _).
  by apply merge_persons_source_missing.
Qed.

Lemma merge_persons_twice_witness :
  merge_persons "Alice" "Bob" (merge_persons "Alice" "Bob" store_friends).2
  = (JObj [("error", JStr "Source person 'Alice' not found. Cannot merge.")],
     (merge_persons "Alice" "Bob" store_friends).2).
Proof.
  assert (Hpeople : Context.people store_friends
                    = Some (Context.get_people store_friends ∅))
    by (vm_compute; reflexivity).
  assert (Hsource : Context.get_people store_friends ∅ !! "Alice" = Some 1%positive)
    by (vm_compute; reflexivity).
  assert (Htarget : Context.get_people store_friends ∅ !! "Bob" = Some 2%positive)
    by (vm_compute; reflexivity).
  assert (Hne : "Alice" ≠ "Bob") by (intros [=]).
  exact (merge_persons_twice store_friends _ "Alice" "Bob" 1%positive 2%positive
           Hpeople Hsource Htarget Hne).
Defined.
